(** * A shallow embedding of the API rate limiter (app.py)

    The proxy keeps three process-wide tables ([ip_requests], [blocked_ips],
    [stats]) and answers every request by sweeping stale data, consulting the
    block table, appending to the caller's request log and, when the request
    is admitted, forwarding it to the backend.

    Modelling conventions.
    - A reading of [time.time()] is an exact integer number of seconds ([Z]);
      binary floating point rounding is outside the model.  Every call site of
      [time.time()] gets its own reading.
    - [ip_requests] and [blocked_ips] are finite maps keyed by the client
      string.  Python iterates a dict in insertion order; the loops of
      [cleanup_old_data] touch one key per iteration, so the order does not
      influence the resulting tables.
    - Operations that can raise in Python ([d[k]] and [del d[k]] on a plain
      dict, the outbound HTTP call, [request.get_json()],
      [datetime.fromtimestamp]) return in [Res].
    - Which times [datetime.fromtimestamp] turns into a date depends on the
      platform (the C library, the time zone, the Python version); the
      development is carried out for an arbitrary platform.
    - The text written through [logger] is not modelled; the tallies kept by
      [log_request] in [stats] are. *)

From Stdlib Require Import ZArith Ascii String List Sorted Lia.

From stdpp Require Import base option list sorting gmap strings pretty fin_maps.

Local Open Scope string_scope.

Local Open Scope list_scope.

Local Open Scope Z_scope.

(** ** Python exceptions and fallible results *)

(** An exception (an instance of [Exception]) is described by what the
    [except] clauses of [proxy_request] can observe of it: whether it is an
    instance of
    [requests.exceptions.Timeout], whether it is an instance of
    [requests.exceptions.ConnectionError], and [str(e)]. *)
Record PyExc : Type := mkExc {
  exc_is_timeout : bool;
  exc_is_connection_error : bool;
  exc_str : string
}.

Definition KeyError (k : string) : PyExc := mkExc false false k.

Inductive Res (A : Type) : Type :=
  | Ok (a : A)
  | Raise (e : PyExc).

Arguments Ok {A} a.

Arguments Raise {A} e.

#[global] Instance Res_ret : MRet Res := fun A a => Ok a.

#[global] Instance Res_bind : MBind Res := fun A B f m =>
  match m with
  | Ok a => f a
  | Raise e => Raise e
  end.

#[global] Instance Res_fmap : FMap Res := fun A B f m =>
  match m with
  | Ok a => Ok (f a)
  | Raise e => Raise e
  end.

(** ** Strings *)

Definition ascii_lower (c : ascii) : ascii :=
  let n := N_of_ascii c in
  if ((65 <=? n) && (n <=? 90))%N then ascii_of_N (n + 32) else c.

(** [str.lower()] on header names (ASCII letters). *)
Fixpoint lower (s : string) : string :=
  match s with
  | EmptyString => EmptyString
  | String c s' => String (ascii_lower c) (lower s')
  end.

(** [needle in hay] for two Python strings. *)
Fixpoint contains (needle hay : string) : bool :=
  String.prefix needle hay ||
  match hay with
  | EmptyString => false
  | String _ hay' => contains needle hay'
  end.

(** [s.split(',')[0]]: the part of [s] before its first comma. *)
Fixpoint before_comma (s : string) : string :=
  match s with
  | EmptyString => EmptyString
  | String c s' => if Ascii.eqb c "," then EmptyString else String c (before_comma s')
  end.

(** [str.isspace] on the characters below 256. *)
Definition py_isspace (c : ascii) : bool :=
  let n := N_of_ascii c in
  (((9 <=? n) && (n <=? 13)) || ((28 <=? n) && (n <=? 32))
   || (n =? 133) || (n =? 160))%N.

Fixpoint lstrip (s : string) : string :=
  match s with
  | EmptyString => EmptyString
  | String c s' => if py_isspace c then lstrip s' else s
  end.

Fixpoint rstrip_by (drop : ascii -> bool) (s : string) : string :=
  match s with
  | EmptyString => EmptyString
  | String c s' =>
      match rstrip_by drop s' with
      | EmptyString => if drop c then EmptyString else String c EmptyString
      | r => String c r
      end
  end.

(** [s.strip()] *)
Definition strip (s : string) : string := rstrip_by py_isspace (lstrip s).

(** [s.rstrip('/')] *)
Definition rstrip_slash (s : string) : string :=
  rstrip_by (fun c => Ascii.eqb c "/") s.

(** Truthiness of a Python string. *)
Definition nonempty (s : string) : bool :=
  match s with EmptyString => false | _ => true end.

(** ** Configuration (module-level constants read from the environment) *)

Record Config : Type := mkConfig {
  BACKEND_URL : string;
  REQUESTS_PER_HOUR : Z;
  DDOS_REQUESTS_PER_MINUTE : Z;
  BLOCK_DURATION_MINUTES : Z
}.

(** ** Data storage *)

Record State : Type := mkState {
  ip_requests : gmap string (list Z);  (* IP -> deque of request times *)
  blocked_ips : gmap string Z;         (* IP -> unblock_time *)
  stats : gmap string Z                (* outcome label -> count *)
}.

Definition set_ip_requests (m : gmap string (list Z)) (st : State) : State :=
  mkState m (blocked_ips st) (stats st).

Definition set_blocked_ips (m : gmap string Z) (st : State) : State :=
  mkState (ip_requests st) m (stats st).

Definition set_stats (m : gmap string Z) (st : State) : State :=
  mkState (ip_requests st) (blocked_ips st) m.

(** [d[k]] on a plain dict. *)
Definition getitem {V : Type} (m : gmap string V) (k : string) : Res V :=
  match m !! k with
  | Some v => Ok v
  | None => Raise (KeyError k)
  end.

(** [del d[k]] on a dict. *)
Definition delitem {V : Type} (m : gmap string V) (k : string) : Res (gmap string V) :=
  match m !! k with
  | Some _ => Ok (delete k m)
  | None => Raise (KeyError k)
  end.

(** [ip_requests[ip]] on the [defaultdict(deque)]: a missing key is created
    with an empty deque.  Returns the deque and the table. *)
Definition dd_getitem (m : gmap string (list Z)) (k : string)
  : list Z * gmap string (list Z) :=
  match m !! k with
  | Some d => (d, m)
  | None => ([], <[k := []]> m)
  end.

(** ** cleanup_old_data *)

(** The inner [while] loop of [cleanup_old_data] on one deque:
    [while d and d[0] < one_hour_ago: d.popleft()]. *)
Fixpoint popleft_while (one_hour_ago : Z) (d : list Z) : list Z :=
  match d with
  | [] => []
  | t :: d' => if t <? one_hour_ago then popleft_while one_hour_ago d' else d
  end.

(** One iteration of the first [for] loop. *)
Definition cleanup_requests_step (one_hour_ago : Z) (ip : string)
    (m : gmap string (list Z)) : Res (gmap string (list Z)) :=
  let '(d, m) := dd_getitem m ip in
  let d := popleft_while one_hour_ago d in
  let m := <[ip := d]> m in
  match d with
  | [] => delitem m ip
  | _ => Ok m
  end.

(** One iteration of the second [for] loop. *)
Definition cleanup_blocks_step (current_time : Z) (ip : string)
    (m : gmap string Z) : Res (gmap string Z) :=
  unblock_time ← getitem m ip;
  if unblock_time <? current_time then delitem m ip else Ok m.

(** [for k in list(d.keys()): body]. *)
Fixpoint for_keys {V : Type} (body : string -> gmap string V -> Res (gmap string V))
    (keys : list string) (m : gmap string V) : Res (gmap string V) :=
  match keys with
  | [] => Ok m
  | k :: keys' => m' ← body k m; for_keys body keys' m'
  end.

Definition keys {V : Type} (m : gmap string V) : list string :=
  (map_to_list m).*1.

Definition cleanup_old_data (current_time : Z) (st : State) : Res State :=
  let one_hour_ago := current_time - 3600 in
  reqs ← for_keys (cleanup_requests_step one_hour_ago) (keys (ip_requests st)) (ip_requests st);
  blocks ← for_keys (cleanup_blocks_step current_time) (keys (blocked_ips st)) (blocked_ips st);
  Ok (mkState reqs blocks (stats st)).

(** ** is_ip_blocked *)

(** [ip in blocked_ips and blocked_ips[ip] > time.time()]; the clock is read
    only when the left operand holds. *)
Definition is_ip_blocked (now : Z) (ip : string) (st : State) : Res bool :=
  if bool_decide (is_Some (blocked_ips st !! ip)) then
    unblock_time ← getitem (blocked_ips st) ip;
    Ok (now <? unblock_time)
  else Ok false.

(** ** check_rate_limit *)

(** [sum(1 for t in d if t > current_time - 60)] *)
Definition count_since (since : Z) (d : list Z) : Z :=
  Z.of_nat (length (filter (fun t => since < t) d)).

Definition check_rate_limit (cfg : Config) (current_time : Z) (ip : string)
    (st : State) : (bool * Z * string) * State :=
  let '(d, reqs) := dd_getitem (ip_requests st) ip in
  let d := d ++ [current_time] in
  let st := set_ip_requests (<[ip := d]> reqs) st in
  let hour_count := Z.of_nat (length d) in
  let minute_requests := count_since (current_time - 60) d in
  if DDOS_REQUESTS_PER_MINUTE cfg <=? minute_requests then
    let block_until := current_time + BLOCK_DURATION_MINUTES cfg * 60 in
    let st := set_blocked_ips (<[ip := block_until]> (blocked_ips st)) st in
    ((false, hour_count, "DDoS detected"), st)
  else if REQUESTS_PER_HOUR cfg <? hour_count then
    ((false, hour_count, "Rate limit exceeded"), st)
  else
    ((true, hour_count, "OK"), st).

(** ** log_request *)

(** [stats[k] += 1] on the [defaultdict(int)]. *)
Definition bump (k : string) (m : gmap string Z) : gmap string Z :=
  <[k := default 0 (m !! k) + 1]> m.

Definition log_request (status : string) (st : State) : State :=
  set_stats (bump "total" (bump status (stats st))) st.

(** ** HTTP values *)

(** A value placed in a [jsonify] body.  [JTime t] stands for the text
    [strftime('%Y-%m-%d %H:%M:%S')] gives for the date of the time [t]. *)
Inductive JVal : Type :=
  | JStr (s : string)
  | JInt (n : Z)
  | JBool (b : bool)
  | JTime (t : Z).

Inductive Body : Type :=
  | JsonBody (fields : list (string * JVal))
  | RawBody (content : string).

Record Response : Type := mkResponse {
  resp_body : Body;
  resp_status : Z;
  resp_headers : list (string * string)
}.

(** [jsonify({...}), status] *)
Definition jsonify (fields : list (string * JVal)) (status : Z) : Response :=
  mkResponse (JsonBody fields) status [].

Record Upload : Type := mkUpload {
  up_filename : string;
  up_stream : string;
  up_content_type : string
}.

(** What the handler reads of Flask's [request]. *)
Record Request : Type := mkRequest {
  req_headers : list (string * string);       (* request.headers.items() *)
  req_remote_addr : option string;            (* request.remote_addr *)
  req_method : string;                        (* request.method *)
  req_path : string;                          (* the <path:path> of the route *)
  req_args : list (string * string);          (* request.args *)
  req_content_type : option string;           (* request.content_type *)
  req_is_json : bool;                         (* request.is_json *)
  req_get_json : Res string;                  (* request.get_json() *)
  req_get_data : string;                      (* request.get_data() *)
  req_form : list (string * string);          (* request.form *)
  req_files : list (string * Upload)          (* request.files *)
}.

(** The body argument of a [requests] call. *)
Inductive Payload : Type :=
  | NoPayload
  | Data (raw : string)
  | Json (value : string)
  | Multipart (data : list (string * string)) (files : list (string * Upload)).

(** One call of [requests.get], [requests.post] or [requests.request];
    [call_params = None] when the call passes no [params=]. *)
Record OutboundCall : Type := mkCall {
  call_method : string;
  call_url : string;
  call_params : option (list (string * string));
  call_headers : list (string * string);
  call_payload : Payload;
  call_timeout : Z
}.

(** [requests.Response]: what the handler reads of it. *)
Record BackendResponse : Type := mkBackendResponse {
  br_content : string;
  br_status_code : Z;
  br_headers : list (string * string)       (* response.headers.items() *)
}.

(** The network and the backend behind it: the result of an outbound call. *)
Definition Backend : Type := OutboundCall -> Res BackendResponse.

(** ** Python dicts built by the handler *)

(** [d[k] = v] on an insertion-ordered dict. *)
Fixpoint dict_set {V : Type} (k : string) (v : V) (d : list (string * V))
  : list (string * V) :=
  match d with
  | [] => [(k, v)]
  | (k', v') :: d' =>
      if bool_decide (k = k') then (k', v) :: d' else (k', v') :: dict_set k v d'
  end.

(** One round of a dict comprehension with an [if] clause. *)
Definition dict_add {V : Type} (keep : string -> bool) (d : list (string * V))
    (kv : string * V) : list (string * V) :=
  if keep kv.1 then dict_set kv.1 kv.2 d else d.

(** [{k: v for k, v in items if keep(k)}] *)
Definition dict_comp {V : Type} (keep : string -> bool) (items : list (string * V))
  : list (string * V) :=
  foldl (dict_add keep) [] items.

(** [MultiDict.to_dict()] and [MultiDict.items()]: the first value of each key. *)
Definition to_dict_flat {V : Type} (items : list (string * V)) : list (string * V) :=
  foldl (fun d kv => if bool_decide (kv.1 ∈ d.*1) then d else d ++ [kv]) [] items.

(** [request.headers.get(name)]: header names compare case-insensitively. *)
Definition headers_get (name : string) (hs : list (string * string)) : option string :=
  snd <$> List.find (fun kv => bool_decide (lower kv.1 = lower name)) hs.

Definition truthy (o : option string) : bool :=
  match o with
  | Some s => nonempty s
  | None => false
  end.

(** ** get_real_ip *)

Definition get_real_ip (req : Request) : string :=
  let forwarded := headers_get "X-Forwarded-For" (req_headers req) in
  if truthy forwarded then strip (before_comma (default "" forwarded))
  else
    let real_ip := headers_get "X-Real-IP" (req_headers req) in
    if truthy real_ip then default "" real_ip
    else if truthy (req_remote_addr req) then default "" (req_remote_addr req)
    else "unknown".

(** ** unblock_ip *)

Definition unblock_ip (ip : string) (st : State) : Res (Response * State) :=
  if bool_decide (is_Some (blocked_ips st !! ip)) then
    blocks ← delitem (blocked_ips st) ip;
    Ok (jsonify [("message", JStr ("IP " +:+ ip +:+ " has been unblocked"));
                 ("success", JBool true)] 200,
        set_blocked_ips blocks st)
  else
    Ok (jsonify [("message", JStr ("IP " +:+ ip +:+ " was not blocked"));
                 ("success", JBool false)] 200,
        st).

(** ** proxy_request *)

(** The readings of [time.time()] during one [proxy_request], one per call
    site; a reading is used only if its call site is reached. *)
Record Clock : Type := mkClock {
  clk_cleanup : Z;     (* cleanup_old_data *)
  clk_blocked : Z;     (* is_ip_blocked *)
  clk_remaining : Z;   (* remaining_time of the blocked answer *)
  clk_check : Z        (* check_rate_limit *)
}.

Definition blocked_reply (remaining_time unblock_time : Z) : Response :=
  jsonify [("error", JStr "IP temporarily blocked");
           ("reason", JStr "Too many requests detected");
           ("remaining_minutes", JInt remaining_time);
           ("unblock_time", JTime unblock_time)] 429.

Definition ddos_reply (cfg : Config) (reason : string) : Response :=
  jsonify [("error", JStr "IP blocked due to suspicious activity");
           ("reason", JStr reason);
           ("block_duration_minutes", JInt (BLOCK_DURATION_MINUTES cfg))] 429.

Definition rate_limited_reply (cfg : Config) (request_count : Z) : Response :=
  jsonify [("error", JStr "Rate limit exceeded");
           ("limit", JStr (pretty (REQUESTS_PER_HOUR cfg) +:+ " requests per hour"));
           ("current_count", JInt request_count);
           ("reset_in_minutes", JInt 60)] 429.

Definition request_header_kept (k : string) : bool :=
  bool_decide (lower k ∉ ["host"; "content-length"]).

Definition excluded_headers : list string :=
  ["content-encoding"; "content-length"; "transfer-encoding"; "connection"].

Definition response_header_kept (k : string) : bool :=
  bool_decide (lower k ∉ excluded_headers).

(** The arguments of the outbound call (the [if method == ...] cascade);
    evaluating them raises when [request.get_json()] does. *)
Definition build_call (cfg : Config) (req : Request) : Res OutboundCall :=
  let backend_url := rstrip_slash (BACKEND_URL cfg) +:+ "/" +:+ req_path req in
  let headers := dict_comp request_header_kept (req_headers req) in
  if bool_decide (req_method req = "GET") then
    Ok (mkCall "GET" backend_url (Some (req_args req)) headers NoPayload 30)
  else if bool_decide (req_method req = "POST") then
    if truthy (req_content_type req)
       && contains "multipart/form-data" (default "" (req_content_type req)) then
      let files := to_dict_flat (req_files req) in
      let data := to_dict_flat (req_form req) in
      Ok (mkCall "POST" backend_url None
            (dict_comp (fun k => bool_decide (lower k ≠ "content-type")) headers)
            (Multipart data files) 30)
    else if req_is_json req then
      j ← req_get_json req;
      Ok (mkCall "POST" backend_url None headers (Json j) 30)
    else
      Ok (mkCall "POST" backend_url None headers (Data (req_get_data req)) 30)
  else
    Ok (mkCall (req_method req) backend_url (Some (req_args req)) headers
          (Data (req_get_data req)) 30).

(** [Response(response.content, status=response.status_code, headers=...)] *)
Definition relay (response : BackendResponse) : Response :=
  mkResponse (RawBody (br_content response)) (br_status_code response)
    (dict_comp response_header_kept (br_headers response)).

(** The [try] block of [proxy_request] with its three [except] clauses. *)
Definition forward (cfg : Config) (backend : Backend) (req : Request)
    (st : State) : Response * State :=
  match call ← build_call cfg req; backend call with
  | Ok response => (relay response, log_request "SUCCESS" st)
  | Raise e =>
      if exc_is_timeout e then
        (jsonify [("error", JStr "Backend service timeout")] 504,
         log_request "TIMEOUT" st)
      else if exc_is_connection_error e then
        (jsonify [("error", JStr "Backend service unavailable")] 502,
         log_request "CONNECTION_ERROR" st)
      else
        (jsonify [("error", JStr "Proxy server error");
                  ("details", JStr (exc_str e))] 500,
         log_request "ERROR" st)
  end.

(** ** datetime.fromtimestamp *)

(** A platform on which [datetime.fromtimestamp] accepts the times from
    0001-01-02 00:00:00 to 9999-12-31 23:59:59 UTC (CPython 3.11 with the
    local time zone set to UTC) and raises on every other one. *)
Definition utc_dates (t : Z) : option PyExc :=
  if (-62135510400 <=? t) && (t <=? 253402300799) then None
  else Some (mkExc false false "timestamp out of range").

Section platform.

(** The platform's [datetime.fromtimestamp]: [None] for a time it turns into
    a date, the exception it raises for any other.  Formatting the date with
    [strftime] does not raise. *)
Variable fromtimestamp_error : Z -> option PyExc.

(** [datetime.fromtimestamp(t)]; the date is kept as the time it stands for. *)
Definition fromtimestamp (t : Z) : Res Z :=
  match fromtimestamp_error t with
  | None => Ok t
  | Some e => Raise e
  end.

(** The body of [proxy_request]: what it returns or raises, and the tables
    as it leaves them either way.  The blocked answer is built after
    [log_request] has run, so an exception of [datetime.fromtimestamp]
    (line 211, before the [try]) leaves the BLOCKED tally in place.  An
    exception in the sweep or in the block test would leave the tables as
    shown here only up to the model of those functions; they raise none
    ([cleanup_old_data_sweep], [is_ip_blocked_lookup]). *)
Definition proxy_request_body (cfg : Config) (backend : Backend) (clk : Clock)
    (req : Request) (st : State) : Res Response * State :=
  let ip := get_real_ip req in
  match cleanup_old_data (clk_cleanup clk) st with
  | Raise e => (Raise e, st)
  | Ok st =>
      match is_ip_blocked (clk_blocked clk) ip st with
      | Raise e => (Raise e, st)
      | Ok true =>
          match getitem (blocked_ips st) ip with
          | Raise e => (Raise e, st)
          | Ok unblock_time =>
              let remaining_time := Z.quot (unblock_time - clk_remaining clk) 60 in
              let st := log_request "BLOCKED" st in
              (unblock_time ← getitem (blocked_ips st) ip;
               date ← fromtimestamp unblock_time;
               Ok (blocked_reply remaining_time date),
               st)
          end
      | Ok false =>
          let '(allowed, request_count, reason, st) :=
            check_rate_limit cfg (clk_check clk) ip st in
          if negb allowed then
            if contains "DDoS" reason then
              (Ok (ddos_reply cfg reason), log_request "DDOS_BLOCKED" st)
            else
              (Ok (rate_limited_reply cfg request_count), log_request "RATE_LIMITED" st)
          else
            let '(response, st) := forward cfg backend req st in
            (Ok response, st)
      end
  end.

(** [proxy_request]: the response and the tables when it returns, the
    exception when it raises. *)
Definition proxy_request (cfg : Config) (backend : Backend) (clk : Clock)
    (req : Request) (st : State) : Res (Response * State) :=
  let '(result, st) := proxy_request_body cfg backend clk req st in
  response ← result;
  Ok (response, st).

(** ** Histories of requests *)

(** What reaches the server: a proxied request, [GET /unblock/<ip>], or
    [GET /health] and [GET /stats], whose only effect on the tables is the
    sweep they start with.  A step gives the tables as the view function
    leaves them, whether it returns or raises; Flask answers an exception
    that leaves a view function through [server_error], which is a hit of
    its own ([HServerError] below). *)
Inductive Event : Type :=
  | EProxy (backend : Backend) (clk : Clock) (req : Request)
  | EUnblock (ip : string)
  | ESweep (now : Z).

Definition step (cfg : Config) (ev : Event) (st : State) : Res State :=
  match ev with
  | EProxy backend clk req => Ok (snd (proxy_request_body cfg backend clk req st))
  | EUnblock ip => snd <$> unblock_ip ip st
  | ESweep now => cleanup_old_data now st
  end.

Fixpoint run (cfg : Config) (evs : list Event) (st : State) : Res State :=
  match evs with
  | [] => Ok st
  | ev :: evs' => st' ← step cfg ev st; run cfg evs' st'
  end.

(** ** health, get_stats and the error handlers *)

(** [GET /health]; the third argument is the reading of [datetime.now()]. *)
Definition health (cfg : Config) (current_time stamp : Z) (st : State)
  : Res (Response * State) :=
  st ← cleanup_old_data current_time st;
  Ok (jsonify [("status", JStr "healthy");
               ("backend_url", JStr (BACKEND_URL cfg));
               ("active_ips", JInt (Z.of_nat (size (ip_requests st))));
               ("blocked_ips", JInt (Z.of_nat (size (blocked_ips st))));
               ("total_requests", JInt (default 0 (stats st !! "total")));
               ("successful_requests", JInt (default 0 (stats st !! "SUCCESS")));
               ("blocked_requests", JInt (default 0 (stats st !! "BLOCKED")));
               ("rate_limited_requests", JInt (default 0 (stats st !! "RATE_LIMITED")));
               ("timestamp", JTime stamp)] 200,
      st).

(** One entry of [blocked_list] in [get_stats]. *)
Record BlockedInfo : Type := mkBlockedInfo {
  bi_ip : string;
  bi_remaining_minutes : Z;
  bi_unblock_time : Z          (* the date, rendered by strftime *)
}.

(** One entry of [ip_usage] in [get_stats]. *)
Record Usage : Type := mkUsage {
  requests_this_hour : Z;
  remaining_requests : Z
}.

(** The body of the answer of [GET /stats]. *)
Record StatsReport : Type := mkStatsReport {
  sr_timestamp : Z;
  sr_blocked_ips : list BlockedInfo;
  sr_ip_usage : list (string * Usage);
  sr_statistics : gmap string Z;
  sr_configuration : Config
}.

(** One round of the loop over [blocked_ips.items()] in [get_stats]. *)
Definition blocked_info (current_time : Z) (kv : string * Z) : Res BlockedInfo :=
  let remaining_minutes := Z.max 0 (Z.quot (kv.2 - current_time) 60) in
  date ← fromtimestamp kv.2;
  Ok (mkBlockedInfo kv.1 remaining_minutes date).

(** [GET /stats].  The two loops run over the items of the tables; the model
    lists them in the order of the finite map, Python in insertion order.
    The first loop stops at the first unblock time
    [datetime.fromtimestamp] raises on. *)
Definition get_stats (cfg : Config) (cleanup_time current_time stamp : Z) (st : State)
  : Res (StatsReport * State) :=
  st ← cleanup_old_data cleanup_time st;
  blocked_list ← mapM (blocked_info current_time) (map_to_list (blocked_ips st));
  let ip_usage :=
    (fun kv : string * list Z =>
       (kv.1, mkUsage (Z.of_nat (length kv.2))
                      (Z.max 0 (REQUESTS_PER_HOUR cfg - Z.of_nat (length kv.2)))))
      <$> map_to_list (ip_requests st) in
  Ok (mkStatsReport stamp blocked_list ip_usage (stats st) cfg, st).

(** [@app.errorhandler(404)] *)
Definition not_found (req : Request) (st : State) : Response * State :=
  (jsonify [("error", JStr "Endpoint not found")] 404, log_request "NOT_FOUND" st).

(** [@app.errorhandler(500)] *)
Definition server_error (req : Request) (st : State) : Response * State :=
  (jsonify [("error", JStr "Internal server error")] 500, log_request "SERVER_ERROR" st).

(** Everything the server answers: the events above and the two error
    handlers. *)
Inductive Hit : Type :=
  | HEvent (ev : Event)
  | HNotFound (req : Request)
  | HServerError (req : Request).

Definition serve (cfg : Config) (hit : Hit) (st : State) : Res State :=
  match hit with
  | HEvent ev => step cfg ev st
  | HNotFound req => Ok (snd (not_found req st))
  | HServerError req => Ok (snd (server_error req st))
  end.

Fixpoint serve_all (cfg : Config) (hits : list Hit) (st : State) : Res State :=
  match hits with
  | [] => Ok st
  | hit :: hits' => st' ← serve cfg hit st; serve_all cfg hits' st'
  end.

(** * Notions used in the statements *)

(** ** The sweep in closed form *)

(** What [cleanup_old_data] leaves of one deque: [None] when the key is
    deleted. *)
Definition prune (one_hour_ago : Z) (d : list Z) : option (list Z) :=
  match popleft_while one_hour_ago d with
  | [] => None
  | d' => Some d'
  end.

(** What [cleanup_old_data] leaves of one block entry. *)
Definition expire (current_time : Z) (unblock_time : Z) : option Z :=
  if unblock_time <? current_time then None else Some unblock_time.

Definition sweep (current_time : Z) (st : State) : State :=
  mkState (omap (prune (current_time - 3600)) (ip_requests st))
          (omap (expire current_time) (blocked_ips st))
          (stats st).

(** What a loop over the keys [ks] that replaces each value [v] by [f v]
    (deleting the key on [None]) makes of the entry at [k]. *)
Definition on_keys {V : Type} (f : V -> option V) (ks : list string)
    (k : string) (v : V) : option V :=
  if bool_decide (k ∈ ks) then f v else Some v.

(** The client's deque as [ip_requests[ip]] would read it. *)
Definition log_of (st : State) (ip : string) : list Z :=
  default [] (ip_requests st !! ip).

Definition tally (label : string) (st : State) : Z :=
  default 0 (stats st !! label).

(** The answer to a request that finds no active block, on the swept state. *)
Definition decide_request (cfg : Config) (backend : Backend) (clk : Clock)
    (req : Request) (st : State) : Response * State :=
  let ip := get_real_ip req in
  let t := clk_check clk in
  let d := log_of st ip ++ [t] in
  let st1 := set_ip_requests (<[ip := d]> (ip_requests st)) st in
  if DDOS_REQUESTS_PER_MINUTE cfg <=? count_since (t - 60) d then
    (ddos_reply cfg "DDoS detected",
     log_request "DDOS_BLOCKED"
       (set_blocked_ips (<[ip := t + BLOCK_DURATION_MINUTES cfg * 60]> (blocked_ips st)) st1))
  else if REQUESTS_PER_HOUR cfg <? Z.of_nat (length d) then
    (rate_limited_reply cfg (Z.of_nat (length d)), log_request "RATE_LIMITED" st1)
  else forward cfg backend req st1.

(** ** Blocked clients *)


(** A per-minute threshold of one request and blocks of 10^10 minutes, some
    nineteen thousand years. *)
Definition endless_config : Config := mkConfig "https://httpbin.org" 60 1 10000000000.

(** The state one request leaves at time 0 under [endless_config]. *)
Definition far_blocked_state : State :=
  mkState {["10.0.0.1" := [0]]} {["10.0.0.1" := 600000000000]}
          {["DDOS_BLOCKED" := 1; "total" := 1]}.

(** ** The sweep at its bounds *)

(** The state one request leaves at time 0 when the per-minute threshold is
    1 and blocks last 60 minutes. *)
Definition boundary_state : State :=
  mkState {["10.0.0.1" := [0]]} {["10.0.0.1" := 3600]}
          {["DDOS_BLOCKED" := 1; "total" := 1]}.

(** The sweep as the specification words it, with both comparisons
    inclusive. *)
Definition sweep_removes_inclusive (now : Z) (st : State) : Prop :=
  exists st',
    cleanup_old_data now st = Ok st'
    /\ (forall ip d t, ip_requests st' !! ip = Some d -> t ∈ d -> ~ t <= now - 3600)
    /\ (forall ip, ip_requests st' !! ip <> Some [])
    /\ (forall ip e, blocked_ips st' !! ip = Some e -> ~ e <= now).

(** ** Histories *)

(** The reading of [check_rate_limit] when [ev] is a proxied request of
    client [ip]. *)
Definition ev_time (ip : string) (ev : Event) : list Z :=
  match ev with
  | EProxy _ clk req => if bool_decide (get_real_ip req = ip) then [clk_check clk] else []
  | _ => []
  end.

(** The times at which client [ip] asked, in order. *)
Fixpoint ip_times (ip : string) (evs : list Event) : list Z :=
  match evs with
  | [] => []
  | ev :: evs' => ev_time ip ev ++ ip_times ip evs'
  end.

(** [ev] lies in the hour that starts at [T0]: its sweep does not reach past
    [T0], and a request of client [ip] is not stamped before [T0]. *)
Definition in_window (T0 : Z) (ip : string) (ev : Event) : Prop :=
  match ev with
  | EProxy _ clk req =>
      clk_cleanup clk - 3600 <= T0 /\ (get_real_ip req = ip -> T0 <= clk_check clk)
  | EUnblock _ => True
  | ESweep now => now - 3600 <= T0
  end.

(** The per-minute check does not fire on a request stamped [t] that follows
    the requests stamped [hist]. *)
Definition below_ddos (cfg : Config) (hist : list Z) (ts : list Z) : Prop :=
  match ts with
  | [] => True
  | t :: _ => count_since (t - 60) (hist ++ [t]) < DDOS_REQUESTS_PER_MINUTE cfg
  end.

(** The per-minute check fires on none of the requests of client [ip] in
    [evs], which follow the requests stamped [hist]. *)
Fixpoint ddos_quiet (cfg : Config) (ip : string) (hist : list Z) (evs : list Event) : Prop :=
  match evs with
  | [] => True
  | ev :: evs' =>
      below_ddos cfg hist (ev_time ip ev)
      /\ ddos_quiet cfg ip (hist ++ ev_time ip ev) evs'
  end.

(** The [n] latest of the requests stamped [hist]. *)
Definition latest (n : nat) (hist : list Z) : list Z :=
  drop (length hist - n)%nat hist.

(** The reading of the sweep [ev] opens with. *)
Definition sweep_time (ev : Event) : option Z :=
  match ev with
  | EProxy _ clk _ => Some (clk_cleanup clk)
  | EUnblock _ => None
  | ESweep now => Some now
  end.

(** At the sweep of [ev], the [REQUESTS_PER_HOUR] latest of the requests
    stamped [hist] are at most an hour old. *)
Definition keeps_up (cfg : Config) (hist : list Z) (ev : Event) : Prop :=
  match sweep_time ev with
  | Some now =>
      Forall (fun t => now - 3600 <= t) (latest (Z.to_nat (REQUESTS_PER_HOUR cfg)) hist)
  | None => True
  end.

(** Client [ip], whose requests so far are stamped [hist], keeps asking
    along [evs]: at every sweep the [REQUESTS_PER_HOUR] latest of its
    requests, whatever they were answered, are at most an hour old. *)
Fixpoint keeps_retrying (cfg : Config) (ip : string) (hist : list Z) (evs : list Event)
  : Prop :=
  match evs with
  | [] => True
  | ev :: evs' => keeps_up cfg hist ev /\ keeps_retrying cfg ip (hist ++ ev_time ip ev) evs'
  end.

(** Every deque is in non-decreasing order and holds nothing later than [T]. *)
Definition time_ordered (T : Z) (st : State) : Prop :=
  forall ip d, ip_requests st !! ip = Some d ->
               StronglySorted Z.le d /\ Forall (fun t => t <= T) d.

(** The readings taken by [check_rate_limit] along [evs] never go back, and
    start no earlier than [T]. *)
Fixpoint clock_monotone (T : Z) (evs : list Event) : Prop :=
  match evs with
  | [] => True
  | EProxy _ clk _ :: evs' => T <= clk_check clk /\ clock_monotone (clk_check clk) evs'
  | _ :: evs' => clock_monotone T evs'
  end.

(** ** Tallies *)

(** The labels [log_request] is called with. *)
Definition outcome_labels : list string :=
  ["SUCCESS"; "TIMEOUT"; "CONNECTION_ERROR"; "ERROR"; "BLOCKED"; "DDOS_BLOCKED";
   "RATE_LIMITED"; "NOT_FOUND"; "SERVER_ERROR"].

Definition sum_tallies (labels : list string) (st : State) : Z :=
  foldr (fun label acc => tally label st + acc) 0 labels.

(** Whether answering [hit] calls [log_request]. *)
Definition logged (hit : Hit) : Z :=
  match hit with
  | HEvent (EProxy _ _ _) => 1
  | HEvent _ => 0
  | HNotFound _ => 1
  | HServerError _ => 1
  end.

Definition logged_hits (hits : list Hit) : Z :=
  foldr (fun hit acc => logged hit + acc) 0 hits.

(** ** Blocks *)

(** [ev] neither outlasts nor lifts the block of client [ip] that runs until
    [expiry]: it sweeps no later than [expiry], it is no unblock call for
    [ip], and when it is a request of [ip] the block test reads the clock
    before [expiry]. *)
Definition keeps_block (ip : string) (expiry : Z) (ev : Event) : Prop :=
  match ev with
  | EProxy _ clk req =>
      clk_cleanup clk <= expiry /\ (get_real_ip req = ip -> clk_blocked clk < expiry)
  | EUnblock ip' => ip' <> ip
  | ESweep now => now <= expiry
  end.

(** ** Sample inputs *)

(** A raw POST and the same request sent with PUT. *)
Definition raw_request (method : string) : Request :=
  mkRequest [("Host", "proxy.local"); ("Content-Type", "text/plain");
             ("Content-Length", "5"); ("X-Trace", "7")]
            (Some "10.0.0.1") method "post" [("a", "1")]
            (Some "text/plain") false (Raise (mkExc false false "Unsupported Media Type"))
            "hello" [] [].

(** A backend that reports whether it was given query parameters. *)
Definition query_echo : Backend := fun call =>
  Ok (mkBackendResponse
        (match call_params call with
         | Some _ => "query received"
         | None => "no query"
         end) 200 []).

(** [req] with one more header in front. *)
Definition with_header (k v : string) (req : Request) : Request :=
  mkRequest ((k, v) :: req_headers req) (req_remote_addr req) (req_method req)
    (req_path req) (req_args req) (req_content_type req) (req_is_json req)
    (req_get_json req) (req_get_data req) (req_form req) (req_files req).

(** The defaults of the four environment variables. *)
Definition default_config : Config := mkConfig "https://httpbin.org" 60 20 60.

(** Two requests per hour. *)
Definition strict_config : Config := mkConfig "https://httpbin.org" 2 20 60.

(** A per-minute threshold of one request. *)
Definition jumpy_config : Config := mkConfig "https://httpbin.org" 60 1 60.

(** No hourly quota at all. *)
Definition closed_config : Config := mkConfig "https://httpbin.org" 0 20 60.

(** A per-minute threshold of two requests. *)
Definition twitchy_config : Config := mkConfig "https://httpbin.org" 60 2 60.

(** A client last seen more than an hour before time 5000. *)
Definition idle_state : State := mkState {["10.0.0.1" := [0; 10]]} ∅ ∅.

(** A form upload. *)
Definition upload_request : Request :=
  mkRequest [("Host", "proxy.local"); ("content-type", "multipart/form-data; boundary=x");
             ("Content-Length", "120"); ("X-Trace", "7")]
            (Some "10.0.0.1") "POST" "upload" [("a", "1")]
            (Some "multipart/form-data; boundary=x") false
            (Raise (mkExc false false "Unsupported Media Type"))
            "" [("title", "t")] [("file", mkUpload "a.txt" "abc" "text/plain")].

(** A JSON POST whose body does not parse. *)
Definition bad_json_request : Request :=
  mkRequest [("Host", "proxy.local"); ("Content-Type", "application/json")]
            (Some "10.0.0.1") "POST" "post" []
            (Some "application/json") true
            (Raise (mkExc false false "400 Bad Request"))
            "{" [] [].

(** The tables of a freshly started server. *)
Definition empty_state : State := mkState ∅ ∅ ∅.

(** A request during which the clock does not advance. *)
Definition at_time (t : Z) : Clock := mkClock t t t t.

(** A backend that never answers in time. *)
Definition timeout_backend : Backend := fun _ => Raise (mkExc true false "timed out").

(** A backend whose answer carries two hop-by-hop headers. *)
Definition sample_backend : Backend := fun _ =>
  Ok (mkBackendResponse "body" 200
        [("Content-Length", "4"); ("X-A", "b"); ("connection", "close")]).

(** A client with two aged entries, a fresh one and a lapsed block. *)
Definition aged_state : State :=
  mkState {["10.0.0.1" := [0; 10; 5000]]} {["10.0.0.1" := 100]} ∅.

(** A client with three requests on record. *)
Definition busy_state : State :=
  mkState {["10.0.0.1" := [0; 100; 200]]} ∅ ∅.

(** * Properties *)

(** ** The sweep in closed form *)

Lemma bind_Ok {A B : Type} (a : A) (f : A -> Res B) : (Ok a ≫= f) = f a.
Proof. reflexivity. Qed.

Lemma fmap_Ok {A B : Type} (a : A) (f : A -> B) : f <$> Ok a = Ok (f a).
Proof. reflexivity. Qed.

Section for_keys.
Context {V : Type} (body : string -> gmap string V -> Res (gmap string V))
        (f : V -> option V).
Hypothesis body_at : forall k m v,
  m !! k = Some v -> body k m = Ok (partial_alter (fun _ => f v) k m).

Lemma for_keys_imap ks (m : gmap string V) :
  NoDup ks -> (forall k, k ∈ ks -> is_Some (m !! k)) ->
  for_keys body ks m = Ok (map_imap (on_keys f ks) m).
Proof.
  revert m. induction ks as [|k ks IH]; intros m Hnd Hin; simpl.
  - f_equal. apply map_eq; intros j. rewrite map_lookup_imap.
    unfold on_keys. by destruct (m !! j).
  - apply NoDup_cons in Hnd as [Hk Hnd].
    destruct (Hin k) as [v Hv]; [left|].
    rewrite (body_at _ _ _ Hv). simpl. unfold mbind, Res_bind.
    rewrite IH; [|done|].
    + f_equal. apply map_eq; intros j. rewrite !map_lookup_imap.
      destruct (decide (j = k)) as [->|Hne].
      * rewrite lookup_partial_alter_eq, Hv. simpl. unfold on_keys.
        rewrite (bool_decide_eq_true_2 (k ∈ k :: ks)) by left.
        rewrite (bool_decide_eq_false_2 (k ∈ ks)) by done.
        by destruct (f v).
      * rewrite lookup_partial_alter_ne by done.
        destruct (m !! j); simpl; [|done]. unfold on_keys.
        destruct (decide (j ∈ ks)).
        -- rewrite !bool_decide_eq_true_2; [done | by right | done].
        -- rewrite !bool_decide_eq_false_2; [done | | done].
           intros [?|?]%elem_of_cons; done.
    + intros j Hj. rewrite lookup_partial_alter_ne; [apply Hin; by right|].
      intros ->. done.
Qed.

Lemma for_keys_all (m : gmap string V) :
  for_keys body (keys m) m = Ok (omap f m).
Proof.
  rewrite for_keys_imap.
  - f_equal. apply map_eq; intros j. rewrite map_lookup_imap, lookup_omap.
    destruct (m !! j) as [v|] eqn:Hj; simpl; [|done]. unfold on_keys.
    rewrite bool_decide_eq_true_2; [done|].
    unfold keys. apply list_elem_of_fmap. exists (j, v). split; [done|].
    by apply elem_of_map_to_list.
  - apply NoDup_fst_map_to_list.
  - intros k [[k' v] [-> Hkv]]%list_elem_of_fmap.
    apply elem_of_map_to_list in Hkv. by exists v.
Qed.
End for_keys.

Lemma cleanup_requests_step_at one_hour_ago k (m : gmap string (list Z)) d :
  m !! k = Some d ->
  cleanup_requests_step one_hour_ago k m
  = Ok (partial_alter (fun _ => prune one_hour_ago d) k m).
Proof.
  intros Hk. unfold cleanup_requests_step, dd_getitem, prune. rewrite Hk.
  destruct (popleft_while one_hour_ago d) as [|t d'] eqn:Hd.
  - unfold delitem. rewrite lookup_insert_eq. f_equal.
    apply map_eq; intros j. destruct (decide (j = k)) as [->|].
    + by rewrite lookup_delete_eq, lookup_partial_alter_eq.
    + rewrite lookup_delete_ne, lookup_insert_ne by done.
      by rewrite lookup_partial_alter_ne.
  - done.
Qed.

Lemma cleanup_blocks_step_at current_time k (m : gmap string Z) e :
  m !! k = Some e ->
  cleanup_blocks_step current_time k m
  = Ok (partial_alter (fun _ => expire current_time e) k m).
Proof.
  intros Hk. unfold cleanup_blocks_step, getitem, expire, delitem. rewrite Hk. simpl.
  destruct (e <? current_time); [done|].
  f_equal. apply map_eq; intros j. destruct (decide (j = k)) as [->|].
  - by rewrite lookup_partial_alter_eq.
  - by rewrite lookup_partial_alter_ne.
Qed.

(** [cleanup_old_data] never raises, and its result is [sweep]. *)
Lemma cleanup_old_data_sweep current_time st :
  cleanup_old_data current_time st = Ok (sweep current_time st).
Proof.
  unfold cleanup_old_data, sweep.
  rewrite (for_keys_all _ (prune (current_time - 3600)))
    by (intros; by apply cleanup_requests_step_at).
  rewrite (for_keys_all _ (expire current_time))
    by (intros; by apply cleanup_blocks_step_at).
  done.
Qed.

Lemma is_ip_blocked_lookup now ip st :
  is_ip_blocked now ip st
  = Ok (match blocked_ips st !! ip with
        | Some unblock_time => now <? unblock_time
        | None => false
        end).
Proof.
  unfold is_ip_blocked, getitem.
  destruct (blocked_ips st !! ip) as [e|] eqn:He.
  - rewrite bool_decide_eq_true_2 by eauto. done.
  - rewrite bool_decide_eq_false_2; [done|]. by intros [? ?].
Qed.

(** ** Facts about one deque *)

Lemma popleft_while_suffix cutoff d :
  exists dropped, d = dropped ++ popleft_while cutoff d
                  /\ Forall (fun t => t < cutoff) dropped.
Proof.
  induction d as [|t d IH]; simpl.
  - by exists [].
  - destruct (Z.ltb_spec t cutoff) as [Hlt|Hge].
    + destruct IH as (dropped & Hd & Hall). exists (t :: dropped). split.
      * simpl. by f_equal.
      * by constructor.
    + by exists [].
Qed.

Lemma popleft_while_keep cutoff d :
  Forall (fun t => cutoff <= t) d -> popleft_while cutoff d = d.
Proof.
  destruct 1 as [|t d Ht _]; simpl; [done|].
  destruct (Z.ltb_spec t cutoff); [lia | done].
Qed.

(** On a deque in non-decreasing order nothing older than the cut-off is
    left behind the first entry that survives. *)
Lemma popleft_while_sorted cutoff d :
  StronglySorted Z.le d -> Forall (fun t => cutoff <= t) (popleft_while cutoff d).
Proof.
  induction 1 as [|t d Hs IH Ht]; simpl; [constructor|].
  destruct (Z.ltb_spec t cutoff); [done|].
  constructor; [done|]. eapply Forall_impl; [exact Ht|]. simpl. lia.
Qed.

Lemma filter_Forall_id (P : Z -> Prop) `{!forall t, Decision (P t)} (d : list Z) :
  Forall P d -> filter P d = d.
Proof.
  induction 1 as [|t d Ht _ IH]; [done|].
  rewrite filter_cons_True by done. by f_equal.
Qed.

Lemma popleft_while_sorted_filter cutoff d :
  StronglySorted Z.le d ->
  popleft_while cutoff d = filter (fun t => cutoff <= t) d.
Proof.
  induction 1 as [|t d Hs IH Ht]; simpl; [done|].
  destruct (Z.ltb_spec t cutoff).
  - rewrite filter_cons_False by lia. done.
  - rewrite filter_cons_True by done. f_equal. symmetry.
    apply filter_Forall_id. eapply Forall_impl; [exact Ht|]. simpl. lia.
Qed.

(** ** Facts about the swept tables *)

Lemma sweep_requests_lookup now st ip :
  ip_requests (sweep now st) !! ip = ip_requests st !! ip ≫= prune (now - 3600).
Proof. unfold sweep. simpl. apply lookup_omap. Qed.

Lemma sweep_blocked_lookup now st ip :
  blocked_ips (sweep now st) !! ip = blocked_ips st !! ip ≫= expire now.
Proof. unfold sweep. simpl. apply lookup_omap. Qed.

Lemma sweep_log_of now st ip :
  log_of (sweep now st) ip = popleft_while (now - 3600) (log_of st ip).
Proof.
  unfold log_of. rewrite sweep_requests_lookup.
  destruct (ip_requests st !! ip) as [d|]; simpl; [|done].
  unfold prune. by destruct (popleft_while (now - 3600) d).
Qed.

Lemma sweep_requests_nonempty now st ip : ip_requests (sweep now st) !! ip <> Some [].
Proof.
  rewrite sweep_requests_lookup.
  destruct (ip_requests st !! ip) as [d|]; simpl; [|done].
  unfold prune. by destruct (popleft_while (now - 3600) d).
Qed.

Lemma sweep_log_of_keep now st ip :
  Forall (fun t => now - 3600 <= t) (log_of st ip) ->
  log_of (sweep now st) ip = log_of st ip.
Proof. intros H. rewrite sweep_log_of. by apply popleft_while_keep. Qed.

Lemma sweep_blocked_None now st ip :
  blocked_ips st !! ip = None -> blocked_ips (sweep now st) !! ip = None.
Proof. intros H. by rewrite sweep_blocked_lookup, H. Qed.

(** ** check_rate_limit and proxy_request in closed form *)

Lemma check_rate_limit_unfold cfg t ip st :
  check_rate_limit cfg t ip st =
  let d := log_of st ip ++ [t] in
  let st1 := set_ip_requests (<[ip := d]> (ip_requests st)) st in
  if DDOS_REQUESTS_PER_MINUTE cfg <=? count_since (t - 60) d then
    ((false, Z.of_nat (length d), "DDoS detected"),
     set_blocked_ips (<[ip := t + BLOCK_DURATION_MINUTES cfg * 60]> (blocked_ips st)) st1)
  else if REQUESTS_PER_HOUR cfg <? Z.of_nat (length d) then
    ((false, Z.of_nat (length d), "Rate limit exceeded"), st1)
  else ((true, Z.of_nat (length d), "OK"), st1).
Proof.
  unfold check_rate_limit, dd_getitem, log_of.
  destruct (ip_requests st !! ip) as [d|]; simpl; [done|].
  by rewrite insert_insert_eq.
Qed.

Lemma proxy_request_body_unfold cfg backend clk req st :
  proxy_request_body cfg backend clk req st =
  let st1 := sweep (clk_cleanup clk) st in
  match blocked_ips st1 !! get_real_ip req with
  | Some unblock_time =>
      if clk_blocked clk <? unblock_time then
        (blocked_reply (Z.quot (unblock_time - clk_remaining clk) 60)
           <$> fromtimestamp unblock_time,
         log_request "BLOCKED" st1)
      else (Ok (decide_request cfg backend clk req st1).1,
            (decide_request cfg backend clk req st1).2)
  | None => (Ok (decide_request cfg backend clk req st1).1,
             (decide_request cfg backend clk req st1).2)
  end.
Proof.
  unfold proxy_request_body. rewrite cleanup_old_data_sweep.
  rewrite is_ip_blocked_lookup. cbv zeta.
  set (st1 := sweep (clk_cleanup clk) st).
  assert (Hdec : (let '(allowed, request_count, reason, st2) :=
              check_rate_limit cfg (clk_check clk) (get_real_ip req) st1 in
            if negb allowed
            then if contains "DDoS" reason
                 then (Ok (ddos_reply cfg reason), log_request "DDOS_BLOCKED" st2)
                 else (Ok (rate_limited_reply cfg request_count),
                       log_request "RATE_LIMITED" st2)
            else let '(response, st3) := forward cfg backend req st2 in
                 (Ok response, st3))
          = (Ok (decide_request cfg backend clk req st1).1,
             (decide_request cfg backend clk req st1).2)).
  { rewrite check_rate_limit_unfold. unfold decide_request. cbv zeta.
    destruct (DDOS_REQUESTS_PER_MINUTE cfg <=? _); [done|].
    destruct (REQUESTS_PER_HOUR cfg <? _); [done|].
    by destruct (forward _ _ _ _). }
  destruct (blocked_ips st1 !! get_real_ip req) as [e|] eqn:He; [|exact Hdec].
  destruct (clk_blocked clk <? e); [|exact Hdec].
  unfold getitem. rewrite He.
  change (blocked_ips (log_request "BLOCKED" st1)) with (blocked_ips st1).
  rewrite He, bind_Ok. by destruct (fromtimestamp e).
Qed.

Lemma proxy_request_unfold cfg backend clk req st :
  proxy_request cfg backend clk req st =
  let st1 := sweep (clk_cleanup clk) st in
  match blocked_ips st1 !! get_real_ip req with
  | Some unblock_time =>
      if clk_blocked clk <? unblock_time then
        date ← fromtimestamp unblock_time;
        Ok (blocked_reply (Z.quot (unblock_time - clk_remaining clk) 60) date,
            log_request "BLOCKED" st1)
      else Ok (decide_request cfg backend clk req st1)
  | None => Ok (decide_request cfg backend clk req st1)
  end.
Proof.
  unfold proxy_request. rewrite proxy_request_body_unfold. cbv zeta.
  destruct (blocked_ips _ !! _) as [e|];
    [destruct (clk_blocked clk <? e); [by destruct (fromtimestamp e)|]|];
    by destruct (decide_request _ _ _ _ _).
Qed.

Lemma step_proxy_unfold cfg backend clk req st :
  step cfg (EProxy backend clk req) st =
  let st1 := sweep (clk_cleanup clk) st in
  Ok match blocked_ips st1 !! get_real_ip req with
     | Some unblock_time =>
         if clk_blocked clk <? unblock_time then log_request "BLOCKED" st1
         else (decide_request cfg backend clk req st1).2
     | None => (decide_request cfg backend clk req st1).2
     end.
Proof.
  unfold step. rewrite proxy_request_body_unfold. cbv zeta.
  destruct (blocked_ips _ !! _) as [e|]; [|done].
  by destruct (clk_blocked clk <? e).
Qed.

(** [proxy_request] raises only in the blocked answer, what
    [datetime.fromtimestamp] raises on the unblock time. *)
Lemma proxy_request_raises cfg backend clk req st e :
  proxy_request cfg backend clk req st = Raise e ->
  exists unblock_time,
    blocked_ips (sweep (clk_cleanup clk) st) !! get_real_ip req = Some unblock_time
    /\ clk_blocked clk < unblock_time
    /\ fromtimestamp_error unblock_time = Some e.
Proof.
  rewrite proxy_request_unfold. cbv zeta.
  destruct (blocked_ips (sweep (clk_cleanup clk) st) !! get_real_ip req) as [u|]; [|done].
  destruct (Z.ltb_spec (clk_blocked clk) u); [|done].
  unfold fromtimestamp. destruct (fromtimestamp_error u) as [e'|] eqn:Hu; [|done].
  intros [= <-]. eauto.
Qed.

Lemma tally_log_request_other label status st :
  label <> status -> label <> "total" ->
  tally label (log_request status st) = tally label st.
Proof.
  intros H1 H2. unfold tally, log_request, bump. simpl.
  rewrite !lookup_insert_ne by done. done.
Qed.

Lemma tally_log_request_same status st :
  status <> "total" ->
  tally status (log_request status st) = tally status st + 1.
Proof.
  intros H. unfold tally, log_request, bump. simpl.
  rewrite lookup_insert_ne by done. by rewrite lookup_insert_eq.
Qed.

(** ** Blocked clients *)

Lemma far_blocked_state_reachable :
  run endless_config
      [EProxy (fun _ => Raise (mkExc false false "unused")) (mkClock 0 0 0 0)
         (mkRequest [] (Some "10.0.0.1") "GET" "get" [] None false (Ok "") "" [] [])]
      (mkState ∅ ∅ ∅)
  = Ok far_blocked_state.
Proof. vm_compute. reflexivity. Qed.


(** ** Manual unblock *)

(** C5: [unblock_ip] never raises and deletes the client's block entry
    whatever its expiry, so [is_ip_blocked] is false for every later clock
    reading; it touches nothing else.  The answer says [success: true] exactly
    when an entry existed; on a client without an entry the state is returned
    as it was and the answer says so. *)
Theorem unblock_ip_removes_entry ip st :
  exists r st',
    unblock_ip ip st = Ok (r, st')
    /\ blocked_ips st' = delete ip (blocked_ips st)
    /\ ip_requests st' = ip_requests st
    /\ stats st' = stats st
    /\ (forall now, is_ip_blocked now ip st' = Ok false)
    /\ resp_status r = 200
    /\ match blocked_ips st !! ip with
       | Some _ =>
           r = jsonify [("message", JStr ("IP " +:+ ip +:+ " has been unblocked"));
                        ("success", JBool true)] 200
       | None =>
           r = jsonify [("message", JStr ("IP " +:+ ip +:+ " was not blocked"));
                        ("success", JBool false)] 200
           /\ st' = st
       end.
Proof.
  unfold unblock_ip, delitem.
  destruct (blocked_ips st !! ip) as [e|] eqn:He.
  - rewrite bool_decide_eq_true_2 by eauto. rewrite bind_Ok.
    eexists _, _. split; [done|]. simpl.
    repeat split; try done.
    intros now. rewrite is_ip_blocked_lookup. simpl. by rewrite lookup_delete_eq.
  - rewrite bool_decide_eq_false_2 by (by intros [? ?]).
    eexists _, _. split; [done|].
    split. { symmetry. by apply delete_id. }
    repeat split; try done.
    intros now. by rewrite is_ip_blocked_lookup, He.
Qed.

(** ** The per-minute check *)


(** ** The sweep at its bounds *)

Lemma boundary_state_reachable :
  run (mkConfig "https://httpbin.org" 60 1 60)
      [EProxy (fun _ => Raise (mkExc false false "unused")) (mkClock 0 0 0 0)
         (mkRequest [] (Some "10.0.0.1") "GET" "get" [] None false (Ok "") "" [] [])]
      (mkState ∅ ∅ ∅)
  = Ok boundary_state.
Proof. vm_compute. reflexivity. Qed.

Lemma boundary_state_swept : cleanup_old_data 3600 boundary_state = Ok boundary_state.
Proof. vm_compute. reflexivity. Qed.

(** C4, as stated, fails on the boundaries: one hour after a request made at
    time 0, its timestamp (equal to [now - 3600]) and a block expiring at
    [now] are both still in the tables after the sweep. *)
Lemma sweep_keeps_boundary_entries : ~ sweep_removes_inclusive 3600 boundary_state.
Proof.
  intros (st' & Hst' & Hlog & _ & _).
  rewrite boundary_state_swept in Hst'. injection Hst' as <-.
  apply (Hlog "10.0.0.1" [0] 0); [reflexivity | by left | lia].
Qed.

(** C4, amended: [cleanup_old_data] never raises; afterwards no deque is
    empty, no block entry has an expiry earlier than [now], and, the deques
    being in non-decreasing order, no deque holds a timestamp earlier than
    [now - 3600].  Entries equal to the bounds stay. *)
Theorem cleanup_old_data_removes_stale now st :
  (forall ip d, ip_requests st !! ip = Some d -> StronglySorted Z.le d) ->
  exists st',
    cleanup_old_data now st = Ok st'
    /\ (forall ip d t, ip_requests st' !! ip = Some d -> t ∈ d -> now - 3600 <= t)
    /\ (forall ip, ip_requests st' !! ip <> Some [])
    /\ (forall ip e, blocked_ips st' !! ip = Some e -> now <= e)
    /\ (forall ip, log_of st' ip = filter (fun t => now - 3600 <= t) (log_of st ip))
    /\ (forall ip, blocked_ips st' !! ip
                   = e ← blocked_ips st !! ip; if e <? now then None else Some e).
Proof.
  intros Hsorted. exists (sweep now st).
  split; [apply cleanup_old_data_sweep|].
  assert (Hlog : forall ip,
             log_of (sweep now st) ip = filter (fun t => now - 3600 <= t) (log_of st ip)).
  { intros ip. rewrite sweep_log_of. apply popleft_while_sorted_filter.
    unfold log_of. destruct (ip_requests st !! ip) as [d|] eqn:Hd; simpl; [eauto|].
    constructor. }
  split.
  { intros ip d t Hd Ht. specialize (Hlog ip). unfold log_of at 1 in Hlog.
    rewrite Hd in Hlog. simpl in Hlog. rewrite Hlog in Ht.
    by apply list_elem_of_filter in Ht as [? _]. }
  split; [apply sweep_requests_nonempty|].
  split.
  { intros ip e. rewrite sweep_blocked_lookup.
    destruct (blocked_ips st !! ip) as [e'|]; simpl; [|done]. unfold expire.
    destruct (Z.ltb_spec e' now); [done|]. by intros [= <-]. }
  split; [exact Hlog|].
  intros ip. apply sweep_blocked_lookup.
Qed.

(** ** Histories *)

Lemma ip_times_app ip evs1 evs2 :
  ip_times ip (evs1 ++ evs2) = ip_times ip evs1 ++ ip_times ip evs2.
Proof.
  induction evs1 as [|ev evs1 IH]; simpl; [done|]. by rewrite IH, app_assoc.
Qed.

Lemma ddos_quiet_app cfg ip hist evs1 evs2 :
  ddos_quiet cfg ip hist (evs1 ++ evs2) <->
  ddos_quiet cfg ip hist evs1 /\ ddos_quiet cfg ip (hist ++ ip_times ip evs1) evs2.
Proof.
  revert hist. induction evs1 as [|ev evs1 IH]; intros hist; simpl.
  - rewrite app_nil_r. tauto.
  - rewrite IH, app_assoc. tauto.
Qed.

Lemma forward_state cfg backend req st :
  exists label,
    label ∈ ["SUCCESS"; "TIMEOUT"; "CONNECTION_ERROR"; "ERROR"]
    /\ snd (forward cfg backend req st) = log_request label st.
Proof.
  unfold forward. destruct (_ ≫= _) as [r|e].
  - exists "SUCCESS". split; [repeat constructor | done].
  - destruct (exc_is_timeout e); [exists "TIMEOUT"; split; [repeat constructor | done]|].
    destruct (exc_is_connection_error e);
      [exists "CONNECTION_ERROR" | exists "ERROR"]; (split; [repeat constructor | done]).
Qed.

Lemma forward_tables cfg backend req st :
  ip_requests (snd (forward cfg backend req st)) = ip_requests st
  /\ blocked_ips (snd (forward cfg backend req st)) = blocked_ips st
  /\ tally "RATE_LIMITED" (snd (forward cfg backend req st)) = tally "RATE_LIMITED" st.
Proof.
  unfold forward. destruct (_ ≫= _) as [r|e];
    [|destruct (exc_is_timeout e); [|destruct (exc_is_connection_error e)]];
    simpl; (split; [done|]); (split; [done|]); by apply tally_log_request_other.
Qed.

Lemma unblock_ip_tables ip st :
  exists r st',
    unblock_ip ip st = Ok (r, st')
    /\ ip_requests st' = ip_requests st
    /\ blocked_ips st' = delete ip (blocked_ips st)
    /\ stats st' = stats st.
Proof.
  unfold unblock_ip, delitem.
  destruct (blocked_ips st !! ip) as [e|] eqn:He.
  - rewrite bool_decide_eq_true_2 by eauto. rewrite bind_Ok. by eexists _, _.
  - rewrite bool_decide_eq_false_2 by (by intros [? ?]).
    eexists _, _. repeat split. symmetry. by apply delete_id.
Qed.

Lemma decide_request_requests cfg backend clk req st :
  ip_requests (snd (decide_request cfg backend clk req st))
  = <[get_real_ip req := log_of st (get_real_ip req) ++ [clk_check clk]]> (ip_requests st).
Proof.
  unfold decide_request. cbv zeta.
  destruct (DDOS_REQUESTS_PER_MINUTE cfg <=? _); [done|].
  destruct (REQUESTS_PER_HOUR cfg <? _); [done|].
  by rewrite (proj1 (forward_tables _ _ _ _)).
Qed.

Lemma decide_request_blocked cfg backend clk req st ip :
  get_real_ip req <> ip ->
  blocked_ips (snd (decide_request cfg backend clk req st)) !! ip = blocked_ips st !! ip.
Proof.
  intros Hne. unfold decide_request. cbv zeta.
  destruct (DDOS_REQUESTS_PER_MINUTE cfg <=? _).
  { simpl. by rewrite lookup_insert_ne. }
  destruct (REQUESTS_PER_HOUR cfg <? _); [done|].
  by rewrite (proj1 (proj2 (forward_tables _ _ _ _))).
Qed.

Lemma log_of_insert st ip k d :
  log_of (set_ip_requests (<[k := d]> (ip_requests st)) st) ip
  = if bool_decide (k = ip) then d else log_of st ip.
Proof.
  unfold log_of. simpl. case_bool_decide as Hk.
  - subst. by rewrite lookup_insert_eq.
  - by rewrite lookup_insert_ne.
Qed.

(** The answer to a request that finds no active block and stays below the
    per-minute threshold. *)
Lemma proxy_request_hourly cfg backend clk req st :
  match blocked_ips (sweep (clk_cleanup clk) st) !! get_real_ip req with
  | Some e => clk_blocked clk <? e
  | None => false
  end = false ->
  count_since (clk_check clk - 60)
    (log_of (sweep (clk_cleanup clk) st) (get_real_ip req) ++ [clk_check clk])
    < DDOS_REQUESTS_PER_MINUTE cfg ->
  let swept := sweep (clk_cleanup clk) st in
  let d := log_of swept (get_real_ip req) ++ [clk_check clk] in
  let st2 := set_ip_requests (<[get_real_ip req := d]> (ip_requests swept)) swept in
  proxy_request cfg backend clk req st
  = Ok (if REQUESTS_PER_HOUR cfg <? Z.of_nat (length d)
        then (rate_limited_reply cfg (Z.of_nat (length d)),
              log_request "RATE_LIMITED" st2)
        else forward cfg backend req st2).
Proof.
  intros Hnb Hquiet. cbv zeta. rewrite proxy_request_unfold. cbv zeta.
  unfold decide_request. cbv zeta. rewrite (proj2 (Z.leb_gt _ _) Hquiet).
  destruct (blocked_ips (sweep (clk_cleanup clk) st) !! get_real_ip req) as [e|].
  - by rewrite Hnb.
  - done.
Qed.

Lemma step_quiet cfg ip T0 ev st :
  Forall (fun t => T0 <= t) (log_of st ip) ->
  blocked_ips st !! ip = None ->
  in_window T0 ip ev ->
  below_ddos cfg (log_of st ip) (ev_time ip ev) ->
  exists st',
    step cfg ev st = Ok st'
    /\ log_of st' ip = log_of st ip ++ ev_time ip ev
    /\ blocked_ips st' !! ip = None
    /\ Forall (fun t => T0 <= t) (log_of st' ip).
Proof.
  intros Hhist Hfree Hwin Hquiet.
  assert (Hkeep : forall now, now - 3600 <= T0 ->
            log_of (sweep now st) ip = log_of st ip).
  { intros now Hnow. apply sweep_log_of_keep.
    eapply Forall_impl; [exact Hhist|]. simpl. lia. }
  destruct ev as [backend clk req | ip' | now];
    [rewrite step_proxy_unfold; cbv zeta|simpl step|simpl step];
    cbn [ev_time]; simpl in Hwin, Hquiet.
  - destruct Hwin as [Hsw Hchk]. specialize (Hkeep _ Hsw).
    pose proof (sweep_blocked_None (clk_cleanup clk) _ _ Hfree) as Hfree1.
    case_bool_decide as Hip.
    + subst ip. simpl in Hquiet. rewrite Hfree1.
      unfold decide_request. cbv zeta. rewrite Hkeep.
      rewrite (proj2 (Z.leb_gt _ _) Hquiet).
      set (st2 := set_ip_requests _ _).
      assert (Hst2 : log_of st2 (get_real_ip req) = log_of st (get_real_ip req) ++ [clk_check clk]
                     /\ blocked_ips st2 !! get_real_ip req = None).
      { split; [|done]. unfold st2. rewrite log_of_insert.
        by rewrite bool_decide_eq_true_2. }
      destruct Hst2 as [Hlog2 Hblk2].
      assert (Hall : Forall (fun t => T0 <= t)
                       (log_of st (get_real_ip req) ++ [clk_check clk])).
      { apply Forall_app. split; [done|]. constructor; [by apply Hchk | constructor]. }
      destruct (REQUESTS_PER_HOUR cfg <? _).
      * eexists. split; [done|]. simpl.
        change (log_of (log_request "RATE_LIMITED" st2) (get_real_ip req))
          with (log_of st2 (get_real_ip req)).
        by rewrite Hlog2.
      * destruct (forward_tables cfg backend req st2) as (Hr & Hb & _).
        eexists. split; [done|]. simpl. unfold log_of at 1 3.
        rewrite Hr, Hb. fold (log_of st2 (get_real_ip req)). by rewrite Hlog2.
    + rewrite app_nil_r.
      set (st1 := sweep (clk_cleanup clk) st) in *.
      assert (Hdec : exists st',
        Ok (decide_request cfg backend clk req st1).2 = Ok st'
        /\ log_of st' ip = log_of st ip
        /\ blocked_ips st' !! ip = None
        /\ Forall (fun t => T0 <= t) (log_of st' ip)).
      { eexists. split; [done|]. simpl.
        rewrite decide_request_blocked by done. unfold log_of at 1 3.
        rewrite decide_request_requests, lookup_insert_ne by done.
        fold (log_of st1 ip). by rewrite Hkeep. }
      destruct (blocked_ips st1 !! get_real_ip req) as [e|]; [|exact Hdec].
      destruct (clk_blocked clk <? e); [|exact Hdec].
      eexists. split; [done|]. simpl.
      change (log_of (log_request "BLOCKED" st1) ip) with (log_of st1 ip).
      by rewrite Hkeep.
  - destruct (unblock_ip_tables ip' st) as (r & st' & -> & Hreq & Hblk & _).
    exists st'. split; [done|]. unfold log_of. rewrite Hreq, Hblk, app_nil_r.
    split; [done|]. split; [|done]. by apply lookup_delete_None; right.
  - rewrite cleanup_old_data_sweep. eexists. split; [done|].
    rewrite (Hkeep _ Hwin), app_nil_r. split; [done|].
    split; [by apply sweep_blocked_None | done].
Qed.

Lemma run_quiet cfg ip T0 evs st :
  Forall (fun t => T0 <= t) (log_of st ip) ->
  blocked_ips st !! ip = None ->
  Forall (in_window T0 ip) evs ->
  ddos_quiet cfg ip (log_of st ip) evs ->
  exists st',
    run cfg evs st = Ok st'
    /\ log_of st' ip = log_of st ip ++ ip_times ip evs
    /\ blocked_ips st' !! ip = None
    /\ Forall (fun t => T0 <= t) (log_of st' ip).
Proof.
  revert st. induction evs as [|ev evs IH]; intros st Hhist Hfree Hwin Hquiet; simpl.
  - exists st. by rewrite app_nil_r.
  - apply Forall_cons in Hwin as [Hev Hwin]. destruct Hquiet as [Hq Hquiet].
    destruct (step_quiet cfg ip T0 ev st Hhist Hfree Hev Hq)
      as (st1 & -> & Hlog1 & Hfree1 & Hhist1).
    rewrite bind_Ok. rewrite <- Hlog1 in Hquiet.
    destruct (IH st1 Hhist1 Hfree1 Hwin Hquiet) as (st' & -> & Hlog' & Hfree' & Hhist').
    exists st'. split; [done|]. split; [|done]. by rewrite Hlog', Hlog1, app_assoc.
Qed.

(** *** Deques stay in time order *)

Lemma popleft_while_ordered T cutoff d :
  StronglySorted Z.le d /\ Forall (fun t => t <= T) d ->
  StronglySorted Z.le (popleft_while cutoff d)
  /\ Forall (fun t => t <= T) (popleft_while cutoff d).
Proof.
  destruct (popleft_while_suffix cutoff d) as (dropped & Hd & _).
  intros [Hs Hb]. rewrite Hd in Hs, Hb.
  split; [by apply StronglySorted_app_1_r in Hs | by apply Forall_app in Hb as [_ ?]].
Qed.

Lemma time_ordered_sweep T now st :
  time_ordered T st -> time_ordered T (sweep now st).
Proof.
  intros Hord ip d. rewrite sweep_requests_lookup.
  destruct (ip_requests st !! ip) as [d0|] eqn:Hd0; simpl; [|done].
  unfold prune. specialize (Hord ip d0 Hd0).
  apply (popleft_while_ordered T (now - 3600)) in Hord.
  destruct (popleft_while (now - 3600) d0); [done|]. by intros [= <-].
Qed.

Lemma time_ordered_later T T' st :
  T <= T' -> time_ordered T st -> time_ordered T' st.
Proof.
  intros HT Hord ip d Hd. destruct (Hord ip d Hd) as [Hs Hb]. split; [done|].
  eapply Forall_impl; [exact Hb|]. simpl. lia.
Qed.

Lemma time_ordered_append T t ip st :
  T <= t -> time_ordered T st ->
  time_ordered t (set_ip_requests (<[ip := log_of st ip ++ [t]]> (ip_requests st)) st).
Proof.
  intros HT Hord ip' d. simpl. destruct (decide (ip = ip')) as [<-|Hne].
  - rewrite lookup_insert_eq. intros [= <-].
    assert (Hlog : StronglySorted Z.le (log_of st ip)
                   /\ Forall (fun u => u <= T) (log_of st ip)).
    { unfold log_of. destruct (ip_requests st !! ip) as [d0|] eqn:Hd0; simpl.
      - by apply Hord in Hd0.
      - split; constructor. }
    destruct Hlog as [Hs Hb]. split.
    + apply StronglySorted_app_2; [|done|repeat constructor].
      intros x1 x2 Hx1 ->%list_elem_of_singleton.
      rewrite Forall_forall in Hb. specialize (Hb _ Hx1). simpl in Hb. lia.
    + apply Forall_app. split; [|repeat constructor; lia].
      eapply Forall_impl; [exact Hb|]. simpl. lia.
  - rewrite lookup_insert_ne by done. intros Hd.
    by apply (time_ordered_later T t st HT Hord ip').
Qed.

(** Under a clock that never goes back, every state the server reaches keeps
    its deques in non-decreasing order. *)
Lemma run_time_ordered cfg evs : forall T st,
  time_ordered T st -> clock_monotone T evs ->
  exists T' st', run cfg evs st = Ok st' /\ time_ordered T' st'.
Proof.
  induction evs as [|ev evs IH]; intros T st Hord Hmono; simpl.
  - by exists T, st.
  - destruct ev as [backend clk req | ip | now];
      [rewrite step_proxy_unfold; cbv zeta|simpl step|simpl step]; simpl in Hmono.
    + destruct Hmono as [HT Hmono].
      pose proof (time_ordered_sweep T (clk_cleanup clk) st Hord) as Hsw.
      assert (Hdec : time_ordered (clk_check clk)
                (snd (decide_request cfg backend clk req (sweep (clk_cleanup clk) st)))).
      { intros ip d. rewrite decide_request_requests.
        apply (time_ordered_append T (clk_check clk) (get_real_ip req) _ HT Hsw). }
      destruct (blocked_ips (sweep (clk_cleanup clk) st) !! get_real_ip req) as [e|];
        [destruct (clk_blocked clk <? e)|]; rewrite bind_Ok.
      * apply (IH (clk_check clk)); [|done].
        by apply (time_ordered_later T (clk_check clk)).
      * by apply (IH (clk_check clk)).
      * by apply (IH (clk_check clk)).
    + destruct (unblock_ip_tables ip st) as (r & st' & -> & Hreq & _).
      rewrite fmap_Ok, bind_Ok. apply (IH T); [|done].
      intros ip' d. simpl. rewrite Hreq. apply Hord.
    + rewrite cleanup_old_data_sweep, bind_Ok. apply (IH T); [|done].
      by apply time_ordered_sweep.
Qed.

Lemma reachable_deques_sorted cfg T evs :
  clock_monotone T evs ->
  exists st,
    run cfg evs empty_state = Ok st
    /\ forall ip d, ip_requests st !! ip = Some d -> StronglySorted Z.le d.
Proof.
  intros Hmono.
  destruct (run_time_ordered cfg evs T empty_state) as (T' & st & Hrun & Hord);
    [by intros ip d | done |].
  exists st. split; [done|]. intros ip d Hd. by destruct (Hord ip d Hd).
Qed.

(** ** The hourly limit *)

(** C1: a request that finds no active block and on which the per-minute
    check does not fire has its time stamp appended to the client's deque and
    is answered "Rate limit exceeded" (tallied RATE_LIMITED) when the deque
    then holds more than [REQUESTS_PER_HOUR] entries, and forwarded otherwise;
    forwarding never moves the RATE_LIMITED tally.  Hence, for a client
    without history all of whose requests fall into one hour (no sweep reaches
    past the earliest of them) and stay below the per-minute threshold,
    whatever other clients do in between: its k-th request is forwarded when
    [k <= REQUESTS_PER_HOUR] and answered "Rate limit exceeded" when
    [k > REQUESTS_PER_HOUR], so request [REQUESTS_PER_HOUR + 1] is the first
    one denied. *)
Theorem hourly_limit_admits_up_to_limit cfg :
  (forall backend clk req st swept,
      cleanup_old_data (clk_cleanup clk) st = Ok swept ->
      is_ip_blocked (clk_blocked clk) (get_real_ip req) swept = Ok false ->
      count_since (clk_check clk - 60) (log_of swept (get_real_ip req) ++ [clk_check clk])
        < DDOS_REQUESTS_PER_MINUTE cfg ->
      let d := log_of swept (get_real_ip req) ++ [clk_check clk] in
      let st2 := set_ip_requests (<[get_real_ip req := d]> (ip_requests swept)) swept in
      proxy_request cfg backend clk req st
      = Ok (if REQUESTS_PER_HOUR cfg <? Z.of_nat (length d)
            then (rate_limited_reply cfg (Z.of_nat (length d)),
                  log_request "RATE_LIMITED" st2)
            else forward cfg backend req st2)
      /\ tally "RATE_LIMITED" (log_request "RATE_LIMITED" st2) = tally "RATE_LIMITED" st + 1
      /\ tally "RATE_LIMITED" (snd (forward cfg backend req st2)) = tally "RATE_LIMITED" st)
  /\
  (forall ip T0 st0 pre backend clk req,
      ip_requests st0 !! ip = None ->
      blocked_ips st0 !! ip = None ->
      get_real_ip req = ip ->
      Forall (in_window T0 ip) (pre ++ [EProxy backend clk req]) ->
      ddos_quiet cfg ip [] (pre ++ [EProxy backend clk req]) ->
      exists st st2,
        run cfg pre st0 = Ok st
        /\ ip_requests st2 !! ip = Some (ip_times ip pre ++ [clk_check clk])
        /\ let k := Z.of_nat (length (ip_times ip pre)) + 1 in
           proxy_request cfg backend clk req st
           = Ok (if REQUESTS_PER_HOUR cfg <? k
                 then (rate_limited_reply cfg k, log_request "RATE_LIMITED" st2)
                 else forward cfg backend req st2)).
Proof.
  split.
  - intros backend clk req st swept. rewrite cleanup_old_data_sweep.
    intros [= <-]. rewrite is_ip_blocked_lookup. intros [= Hnb] Hquiet. cbv zeta.
    split; [by apply proxy_request_hourly|].
    split.
    + by rewrite tally_log_request_same.
    + by rewrite (proj2 (proj2 (forward_tables _ _ _ _))).
  - intros ip T0 st0 pre backend clk req Hnew Hfree Hip Hwin Hquiet.
    apply Forall_app in Hwin as [Hpre Hlast].
    apply Forall_cons in Hlast as [[Hsw Hchk] _].
    apply ddos_quiet_app in Hquiet as [Hqpre Hqlast]. simpl in Hqlast.
    rewrite bool_decide_eq_true_2 in Hqlast by done. destruct Hqlast as [Hqlast _].
    assert (Hlog0 : log_of st0 ip = []) by (unfold log_of; by rewrite Hnew).
    destruct (run_quiet cfg ip T0 pre st0) as (st & Hrun & Hlog & Hblk & Hhist);
      [by rewrite Hlog0 | done | done | by rewrite Hlog0 |].
    rewrite Hlog0 in Hlog. simpl in Hlog.
    assert (Hkeep : log_of (sweep (clk_cleanup clk) st) ip = ip_times ip pre).
    { rewrite sweep_log_of_keep; [done|].
      eapply Forall_impl; [exact Hhist|]. simpl. lia. }
    exists st. eexists. split; [done|].
    rewrite proxy_request_hourly.
    + cbv zeta. rewrite Hip, Hkeep, length_app. simpl.
      replace (Z.of_nat (length (ip_times ip pre) + 1))
        with (Z.of_nat (length (ip_times ip pre)) + 1) by lia.
      split; [|reflexivity]. simpl. by rewrite lookup_insert_eq.
    + rewrite Hip. by rewrite (sweep_blocked_None _ _ _ Hblk).
    + by rewrite Hip, Hkeep.
Qed.

(** ** Denied requests are recorded *)

(** A proxied request of one client leaves the deque and the block entry of
    every other client as the opening sweep leaves them, whether it returns
    or raises. *)
Lemma step_proxy_frame cfg backend clk req st other :
  get_real_ip req <> other ->
  exists st',
    step cfg (EProxy backend clk req) st = Ok st'
    /\ ip_requests st' !! other = ip_requests (sweep (clk_cleanup clk) st) !! other
    /\ blocked_ips st' !! other = blocked_ips (sweep (clk_cleanup clk) st) !! other.
Proof.
  intros Hne. rewrite step_proxy_unfold. cbv zeta. eexists. split; [done|].
  assert (Hdec :
    ip_requests (decide_request cfg backend clk req (sweep (clk_cleanup clk) st)).2 !! other
    = ip_requests (sweep (clk_cleanup clk) st) !! other
    /\ blocked_ips (decide_request cfg backend clk req (sweep (clk_cleanup clk) st)).2 !! other
       = blocked_ips (sweep (clk_cleanup clk) st) !! other).
  { rewrite decide_request_requests, lookup_insert_ne by done.
    by rewrite decide_request_blocked. }
  destruct (blocked_ips (sweep (clk_cleanup clk) st) !! get_real_ip req) as [e|];
    [|exact Hdec].
  by destruct (clk_blocked clk <? e).
Qed.

Lemma decide_request_quiet cfg backend clk req st :
  count_since (clk_check clk - 60) (log_of st (get_real_ip req) ++ [clk_check clk])
    < DDOS_REQUESTS_PER_MINUTE cfg ->
  blocked_ips (decide_request cfg backend clk req st).2 = blocked_ips st.
Proof.
  intros Hq. unfold decide_request. cbv zeta. rewrite (proj2 (Z.leb_gt _ _) Hq).
  destruct (REQUESTS_PER_HOUR cfg <? _); [done|].
  by rewrite (proj1 (proj2 (forward_tables _ _ _ _))).
Qed.

Lemma count_since_app_le since aged d :
  count_since since d <= count_since since (aged ++ d).
Proof. unfold count_since. rewrite filter_app, length_app. lia. Qed.

Lemma popleft_while_app_keep cutoff front recent :
  Forall (fun t => cutoff <= t) recent ->
  popleft_while cutoff (front ++ recent) = popleft_while cutoff front ++ recent.
Proof.
  intros Hrec. induction front as [|t front IH]; simpl.
  - destruct Hrec as [|t recent Ht _]; simpl; [done|].
    by rewrite (proj2 (Z.ltb_ge _ _) Ht).
  - by destruct (t <? cutoff).
Qed.

Lemma latest_suffix n aged d :
  (n <= length d)%nat -> latest n (aged ++ d) = latest n d.
Proof.
  intros Hn. unfold latest. rewrite length_app, drop_app_ge by lia. f_equal. lia.
Qed.

(** A sweep that finds the [n] latest entries of a deque young enough leaves
    at least those. *)
Lemma popleft_while_latest cutoff n d :
  (n <= length d)%nat ->
  Forall (fun t => cutoff <= t) (latest n d) ->
  (n <= length (popleft_while cutoff d))%nat.
Proof.
  intros Hn Hrec. unfold latest in Hrec.
  rewrite <- (take_drop (length d - n) d).
  rewrite popleft_while_app_keep by exact Hrec.
  rewrite length_app, length_drop. lia.
Qed.

Lemma sweep_keeps_latest n ip hist now st :
  (exists aged, hist = aged ++ log_of st ip) ->
  (n <= length (log_of st ip))%nat ->
  Forall (fun t => now - 3600 <= t) (latest n hist) ->
  (exists aged, hist = aged ++ log_of (sweep now st) ip)
  /\ (n <= length (log_of (sweep now st) ip))%nat.
Proof.
  intros [aged ->] Hn Hrec. rewrite latest_suffix in Hrec by done.
  rewrite sweep_log_of. split; [|by apply popleft_while_latest].
  destruct (popleft_while_suffix (now - 3600) (log_of st ip)) as (dropped & Hd & _).
  exists (aged ++ dropped). by rewrite <- app_assoc, <- Hd.
Qed.

(** One event in the life of a client that keeps retrying: it stays without
    a block entry, each of its requests is appended to its deque, and the
    deque keeps at least [REQUESTS_PER_HOUR] entries. *)
Lemma step_retrying cfg ip hist ev st :
  blocked_ips st !! ip = None ->
  (exists aged, hist = aged ++ log_of st ip) ->
  (Z.to_nat (REQUESTS_PER_HOUR cfg) <= length (log_of st ip))%nat ->
  keeps_up cfg hist ev ->
  below_ddos cfg hist (ev_time ip ev) ->
  exists st',
    step cfg ev st = Ok st'
    /\ blocked_ips st' !! ip = None
    /\ (exists aged, hist ++ ev_time ip ev = aged ++ log_of st' ip)
    /\ (Z.to_nat (REQUESTS_PER_HOUR cfg) <= length (log_of st' ip))%nat.
Proof.
  intros Hfree Hsuf Hlen Hup Hquiet. unfold keeps_up in Hup.
  destruct ev as [backend clk req | ip' | now]; cbn [ev_time sweep_time] in *.
  - destruct (sweep_keeps_latest _ ip hist (clk_cleanup clk) st Hsuf Hlen Hup)
      as [[aged1 Hsuf1] Hlen1].
    pose proof (sweep_blocked_None (clk_cleanup clk) _ _ Hfree) as Hfree1.
    case_bool_decide as Hip.
    + subst ip. simpl in Hquiet. rewrite step_proxy_unfold. cbv zeta. rewrite Hfree1.
      set (st1 := sweep (clk_cleanup clk) st) in *.
      assert (Hq1 : count_since (clk_check clk - 60)
                      (log_of st1 (get_real_ip req) ++ [clk_check clk])
                    < DDOS_REQUESTS_PER_MINUTE cfg).
      { eapply Z.le_lt_trans; [|exact Hquiet]. rewrite Hsuf1, <- app_assoc.
        apply count_since_app_le. }
      eexists. split; [done|].
      rewrite decide_request_quiet by done. split; [done|].
      unfold log_of at 1 2.
      rewrite decide_request_requests, lookup_insert_eq. simpl.
      split; [exists aged1; by rewrite Hsuf1, app_assoc|].
      rewrite length_app. simpl. lia.
    + destruct (step_proxy_frame cfg backend clk req st ip Hip)
        as (st' & -> & Hreq & Hblk).
      exists st'. split; [done|]. rewrite Hblk. split; [done|].
      rewrite app_nil_r. unfold log_of at 1 2. rewrite Hreq.
      fold (log_of (sweep (clk_cleanup clk) st) ip). eauto.
  - destruct (unblock_ip_tables ip' st) as (r & st' & Hun & Hreq & Hblk & _).
    simpl step. rewrite Hun, fmap_Ok. exists st'. split; [done|].
    split; [rewrite Hblk; by apply lookup_delete_None; right|].
    rewrite app_nil_r. unfold log_of at 1 2. rewrite Hreq.
    fold (log_of st ip). eauto.
  - simpl step. rewrite cleanup_old_data_sweep. eexists. split; [done|].
    split; [by apply sweep_blocked_None|]. rewrite app_nil_r.
    by apply sweep_keeps_latest.
Qed.

Lemma run_retrying cfg ip evs : forall hist st,
  blocked_ips st !! ip = None ->
  (exists aged, hist = aged ++ log_of st ip) ->
  (Z.to_nat (REQUESTS_PER_HOUR cfg) <= length (log_of st ip))%nat ->
  keeps_retrying cfg ip hist evs ->
  ddos_quiet cfg ip hist evs ->
  exists st',
    run cfg evs st = Ok st'
    /\ blocked_ips st' !! ip = None
    /\ (exists aged, hist ++ ip_times ip evs = aged ++ log_of st' ip)
    /\ (Z.to_nat (REQUESTS_PER_HOUR cfg) <= length (log_of st' ip))%nat.
Proof.
  induction evs as [|ev evs IH]; intros hist st Hfree Hsuf Hlen Hup Hquiet; simpl.
  - exists st. by rewrite app_nil_r.
  - destruct Hup as [Hup Hups]. destruct Hquiet as [Hq Hquiet].
    destruct (step_retrying cfg ip hist ev st Hfree Hsuf Hlen Hup Hq)
      as (st1 & -> & Hfree1 & Hsuf1 & Hlen1).
    rewrite bind_Ok.
    destruct (IH _ st1 Hfree1 Hsuf1 Hlen1 Hups Hquiet) as (st' & -> & ? & Hsuf' & ?).
    exists st'. split; [done|]. split; [done|]. by rewrite app_assoc.
Qed.

Lemma keeps_retrying_app cfg ip hist evs1 evs2 :
  keeps_retrying cfg ip hist (evs1 ++ evs2) <->
  keeps_retrying cfg ip hist evs1 /\ keeps_retrying cfg ip (hist ++ ip_times ip evs1) evs2.
Proof.
  revert hist. induction evs1 as [|ev evs1 IH]; intros hist; simpl.
  - rewrite app_nil_r. tauto.
  - rewrite IH, app_assoc. tauto.
Qed.

(** A client with three aged requests on record and a quota of two retries
    at 3000 and 3500 and is denied both times.  At 3900 the three old
    entries have aged out; the two denied retries are on record in their
    place, and the request is the third of the hour. *)
Lemma retries_replace_aged_entries :
  exists st,
    run strict_config
      [EProxy sample_backend (at_time 3000) (raw_request "GET");
       EProxy sample_backend (at_time 3500) (raw_request "GET")] busy_state = Ok st
    /\ tally "RATE_LIMITED" st = 2
    /\ tally "SUCCESS" st = 0
    /\ log_of st "10.0.0.1" = [0; 100; 200; 3000; 3500]
    /\ cleanup_old_data 3900 st
       = Ok (mkState {["10.0.0.1" := [3000; 3500]]} ∅ (stats st)).
Proof. eexists. split; [vm_compute; reflexivity|]. by vm_compute. Qed.

(** C10: [check_rate_limit] appends the time stamp to the client's deque
    whatever it answers, and counts on the deque so extended.  Hence a client
    that keeps retrying is never re-admitted, even when the entries that
    first put it over the limit age out: take a client without a block entry
    whose deque holds at least [REQUESTS_PER_HOUR] entries, and let it go on
    asking, with other clients' requests, unblock calls and sweeps in
    between, so that at every sweep the [REQUESTS_PER_HOUR] latest of its
    requests, denied ones included, are at most an hour old, and never so
    fast that the per-minute check fires.  Then each of its requests finds
    at least [REQUESTS_PER_HOUR] entries left by the sweep, is recorded, and
    is answered 429 "Rate limit exceeded" with the count, tallied
    RATE_LIMITED and nothing else. *)
Theorem denied_requests_still_count cfg :
  (forall now ip st,
      let '(allowed, hour_count, reason, st') := check_rate_limit cfg now ip st in
      ip_requests st' = <[ip := log_of st ip ++ [now]]> (ip_requests st)
      /\ hour_count = Z.of_nat (length (log_of st ip)) + 1
      /\ (allowed = true <->
          REQUESTS_PER_HOUR cfg >= hour_count
          /\ count_since (now - 60) (log_of st ip ++ [now]) < DDOS_REQUESTS_PER_MINUTE cfg))
  /\
  (forall ip st0 evs backend clk req,
      get_real_ip req = ip ->
      blocked_ips st0 !! ip = None ->
      REQUESTS_PER_HOUR cfg <= Z.of_nat (length (log_of st0 ip)) ->
      keeps_retrying cfg ip (log_of st0 ip) (evs ++ [EProxy backend clk req]) ->
      ddos_quiet cfg ip (log_of st0 ip) (evs ++ [EProxy backend clk req]) ->
      exists st swept aged st',
        run cfg evs st0 = Ok st
        /\ cleanup_old_data (clk_cleanup clk) st = Ok swept
        /\ log_of st0 ip ++ ip_times ip evs = aged ++ log_of swept ip
        /\ REQUESTS_PER_HOUR cfg < Z.of_nat (length (log_of swept ip)) + 1
        /\ proxy_request cfg backend clk req st
           = Ok (mkResponse
                   (JsonBody
                      [("error", JStr "Rate limit exceeded");
                       ("limit",
                        JStr (pretty (REQUESTS_PER_HOUR cfg) +:+ " requests per hour"));
                       ("current_count", JInt (Z.of_nat (length (log_of swept ip)) + 1));
                       ("reset_in_minutes", JInt 60)])
                   429 [],
                 st')
        /\ log_of st' ip = log_of swept ip ++ [clk_check clk]
        /\ stats st' = bump "total" (bump "RATE_LIMITED" (stats st))).
Proof.
  split.
  - intros now ip st. rewrite check_rate_limit_unfold. cbv zeta.
    rewrite length_app. simpl.
    replace (Z.of_nat (length (log_of st ip) + 1))
      with (Z.of_nat (length (log_of st ip)) + 1) by lia.
    destruct (Z.leb_spec (DDOS_REQUESTS_PER_MINUTE cfg)
                (count_since (now - 60) (log_of st ip ++ [now]))).
    { split; [done|]. split; [done|]. split; [done|]. lia. }
    destruct (Z.ltb_spec (REQUESTS_PER_HOUR cfg) (Z.of_nat (length (log_of st ip)) + 1)).
    { split; [done|]. split; [done|]. split; [done|]. lia. }
    split; [done|]. split; [done|]. split; [|done]. intros _. lia.
  - intros ip st0 evs backend clk req Hip Hfree Hfull Hup Hquiet.
    apply keeps_retrying_app in Hup as [Hup [Hlast _]].
    apply ddos_quiet_app in Hquiet as [Hquiet [Hqlast _]].
    unfold keeps_up in Hlast. cbn [ev_time sweep_time] in Hlast, Hqlast.
    rewrite bool_decide_eq_true_2 in Hqlast by done. simpl in Hqlast.
    destruct (run_retrying cfg ip evs (log_of st0 ip) st0)
      as (st & Hrun & Hfree' & Hsuf & Hlen); [done|by exists []|lia|done|done|].
    destruct (sweep_keeps_latest _ ip _ (clk_cleanup clk) st Hsuf Hlen Hlast)
      as [[aged Hsuf1] Hlen1].
    pose proof (sweep_blocked_None (clk_cleanup clk) _ _ Hfree') as Hfree1.
    set (swept := sweep (clk_cleanup clk) st) in *.
    assert (Hq1 : count_since (clk_check clk - 60) (log_of swept ip ++ [clk_check clk])
                  < DDOS_REQUESTS_PER_MINUTE cfg).
    { eapply Z.le_lt_trans; [|exact Hqlast]. rewrite Hsuf1, <- app_assoc.
      apply count_since_app_le. }
    assert (Hover : REQUESTS_PER_HOUR cfg < Z.of_nat (length (log_of swept ip)) + 1) by lia.
    exists st, swept, aged. eexists.
    split; [done|]. split; [apply cleanup_old_data_sweep|]. split; [done|].
    split; [done|].
    split.
    { rewrite proxy_request_unfold. cbv zeta. fold swept. rewrite Hip, Hfree1.
      unfold decide_request. cbv zeta. rewrite Hip.
      rewrite (proj2 (Z.leb_gt _ _) Hq1).
      rewrite length_app. simpl.
      replace (Z.of_nat (length (log_of swept ip) + 1))
        with (Z.of_nat (length (log_of swept ip)) + 1) by lia.
      by rewrite (proj2 (Z.ltb_lt _ _) Hover). }
    split; [|done].
    unfold log_of at 1. simpl. by rewrite lookup_insert_eq.
Qed.

(** ** Forwarding *)

Lemma proxy_request_admitted cfg backend clk req st swept count reason st2 :
  cleanup_old_data (clk_cleanup clk) st = Ok swept ->
  is_ip_blocked (clk_blocked clk) (get_real_ip req) swept = Ok false ->
  check_rate_limit cfg (clk_check clk) (get_real_ip req) swept = ((true, count, reason), st2) ->
  proxy_request cfg backend clk req st = Ok (forward cfg backend req st2).
Proof.
  intros Hsw Hnb Hchk. unfold proxy_request, proxy_request_body.
  rewrite Hsw, Hnb, Hchk. simpl. by destruct (forward cfg backend req st2).
Qed.

(** C6: the admission decision raises nothing: the sweep and the block test
    return ([check_rate_limit] is a total function), and a request that finds
    no active block is answered whatever the outbound call does, so that no
    forwarding failure leaves [proxy_request].  The only exception that does
    leave it is the one [datetime.fromtimestamp] raises on the unblock time
    while the BLOCKED answer is built (line 211), which is no forwarding
    failure and comes after the decision.  When an admitted request's
    outbound call raises [e], the answer is 504 tallied TIMEOUT if [e] is a
    [Timeout]; otherwise 502 tallied CONNECTION_ERROR if [e] is a
    [ConnectionError]; otherwise 500 tallied ERROR and carrying [str(e)]. *)
Theorem backend_failures_map_to_error_replies cfg backend clk req st :
  (exists swept blocked,
      cleanup_old_data (clk_cleanup clk) st = Ok swept
      /\ is_ip_blocked (clk_blocked clk) (get_real_ip req) swept = Ok blocked
      /\ (blocked = false ->
          exists r st', proxy_request cfg backend clk req st = Ok (r, st'))
      /\ (forall e, proxy_request cfg backend clk req st = Raise e ->
          blocked = true
          /\ exists unblock_time,
               blocked_ips swept !! get_real_ip req = Some unblock_time
               /\ clk_blocked clk < unblock_time
               /\ fromtimestamp_error unblock_time = Some e))
  /\ (forall swept count reason st2 e,
        cleanup_old_data (clk_cleanup clk) st = Ok swept ->
        is_ip_blocked (clk_blocked clk) (get_real_ip req) swept = Ok false ->
        check_rate_limit cfg (clk_check clk) (get_real_ip req) swept
          = ((true, count, reason), st2) ->
        (call ← build_call cfg req; backend call) = Raise e ->
        proxy_request cfg backend clk req st
        = Ok (if exc_is_timeout e then
                (mkResponse (JsonBody [("error", JStr "Backend service timeout")]) 504 [],
                 log_request "TIMEOUT" st2)
              else if exc_is_connection_error e then
                (mkResponse (JsonBody [("error", JStr "Backend service unavailable")])
                   502 [],
                 log_request "CONNECTION_ERROR" st2)
              else
                (mkResponse (JsonBody [("error", JStr "Proxy server error");
                                       ("details", JStr (exc_str e))]) 500 [],
                 log_request "ERROR" st2))).
Proof.
  split.
  { eexists _, _. split; [apply cleanup_old_data_sweep|].
    split; [apply is_ip_blocked_lookup|].
    split.
    - intros Hnb. rewrite proxy_request_unfold. cbv zeta.
      destruct (decide_request cfg backend clk req (sweep (clk_cleanup clk) st)).
      destruct (blocked_ips (sweep (clk_cleanup clk) st) !! get_real_ip req) as [u|];
        [rewrite Hnb|]; by eexists _, _.
    - intros e (u & Hu & Hlive & He)%proxy_request_raises.
      rewrite Hu. split; [by apply Z.ltb_lt | eauto]. }
  intros swept count reason st2 e Hsw Hnb Hchk Hfail.
  rewrite (proxy_request_admitted _ _ _ _ _ _ _ _ _ Hsw Hnb Hchk).
  unfold forward. rewrite Hfail.
  destruct (exc_is_timeout e); [done|]. by destruct (exc_is_connection_error e).
Qed.

(** *** Dict comprehensions *)

Lemma dict_set_fresh {V : Type} k (v : V) d :
  k ∉ d.*1 -> dict_set k v d = d ++ [(k, v)].
Proof.
  induction d as [|[k' v'] d IH]; simpl; [done|].
  intros Hk. apply not_elem_of_cons in Hk as [Hne Hk].
  rewrite bool_decide_eq_false_2 by done. by rewrite IH.
Qed.

Lemma dict_set_keys {V : Type} k (v : V) d k' :
  k' ∈ (dict_set k v d).*1 <-> k' = k \/ k' ∈ d.*1.
Proof.
  induction d as [|[k0 v0] d IH]; simpl.
  - rewrite list_elem_of_singleton. split; [by left | intros [?|?%elem_of_nil]; done].
  - case_bool_decide as Hk; simpl; rewrite !elem_of_cons.
    + subst. tauto.
    + rewrite IH. tauto.
Qed.

Lemma dict_set_elem {V : Type} k (v : V) d k' v' :
  (k', v') ∈ dict_set k v d -> (k', v') = (k, v) \/ (k', v') ∈ d.
Proof.
  induction d as [|[k0 v0] d IH]; simpl.
  - rewrite list_elem_of_singleton. by left.
  - case_bool_decide as Hk; rewrite !elem_of_cons.
    + subst. intros [[= -> ->]|?]; [by left | right; by right].
    + intros [?|?]; [right; by left|]. destruct IH as [?|?]; [done | by left | right; by right].
Qed.

Section dict_comp.
Context {V : Type} (keep : string -> bool).

Lemma dict_fold_keys (items : list (string * V)) : forall acc k,
  k ∈ (foldl (dict_add keep) acc items).*1 <-> k ∈ acc.*1 \/ (k ∈ items.*1 /\ keep k = true).
Proof.
  induction items as [|[k0 v0] items IH]; intros acc k; simpl.
  - split; [by left | intros [?|[?%elem_of_nil _]]; done].
  - rewrite IH, elem_of_cons. unfold dict_add. simpl.
    destruct (keep k0) eqn:Hk0.
    + rewrite dict_set_keys. split.
      * intros [[->|?]|[? ?]]; [right; split; [by left | done] | by left | right; tauto].
      * intros [?|[[->|?] ?]]; [left; by right | left; by left | right; tauto].
    + split.
      * intros [?|[? ?]]; [by left | right; tauto].
      * intros [?|[[->|?] ?]]; [by left | congruence | right; tauto].
Qed.

Lemma dict_fold_elem (items : list (string * V)) : forall acc k v,
  (k, v) ∈ foldl (dict_add keep) acc items -> (k, v) ∈ acc \/ ((k, v) ∈ items /\ keep k = true).
Proof.
  induction items as [|[k0 v0] items IH]; intros acc k v; simpl; [by left|].
  intros [Hacc|[Hin Hk]]%IH.
  - unfold dict_add in Hacc. simpl in Hacc. destruct (keep k0) eqn:Hk0; [|by left].
    apply dict_set_elem in Hacc as [[= -> ->]|?]; [|by left].
    right. split; [by left | done].
  - right. split; [by right | done].
Qed.

Lemma dict_fold_NoDup (items : list (string * V)) : forall acc,
  NoDup (acc.*1 ++ items.*1) ->
  foldl (dict_add keep) acc items = acc ++ filter (fun kv => keep kv.1) items.
Proof.
  induction items as [|[k0 v0] items IH]; intros acc Hnd; simpl.
  - by rewrite app_nil_r.
  - rewrite fmap_cons in Hnd. apply NoDup_app in Hnd as (Hacc & Hdisj & Hitems).
    apply NoDup_cons in Hitems as [Hk0 Hitems].
    assert (Hfresh : k0 ∉ acc.*1) by (intros Hin; apply (Hdisj _ Hin); by left).
    unfold dict_add at 2. simpl. destruct (keep k0) eqn:Hkeep.
    + rewrite filter_cons_True by (simpl; by rewrite Hkeep).
      rewrite dict_set_fresh by done. rewrite IH; [by rewrite <- app_assoc|].
      rewrite fmap_app. simpl. rewrite <- app_assoc. simpl.
      apply NoDup_app. split; [done|]. split; [|by apply NoDup_cons].
      intros k Hk. apply Hdisj. done.
    + rewrite filter_cons_False by (simpl; rewrite Hkeep; intros []).
      apply IH. apply NoDup_app. split; [done|]. split; [|done].
      intros k Hk Hin. apply (Hdisj _ Hk). by right.
Qed.

Lemma dict_comp_keys (items : list (string * V)) k :
  k ∈ (dict_comp keep items).*1 <-> k ∈ items.*1 /\ keep k = true.
Proof.
  unfold dict_comp. rewrite dict_fold_keys. simpl.
  split; [intros [?%elem_of_nil|?]; done | by right].
Qed.

Lemma dict_comp_elem (items : list (string * V)) k v :
  (k, v) ∈ dict_comp keep items -> (k, v) ∈ items /\ keep k = true.
Proof.
  unfold dict_comp. intros [?%elem_of_nil|?]%dict_fold_elem; done.
Qed.

Lemma dict_comp_NoDup (items : list (string * V)) :
  NoDup items.*1 -> dict_comp keep items = filter (fun kv => keep kv.1) items.
Proof. intros Hnd. unfold dict_comp. by rewrite dict_fold_NoDup. Qed.
End dict_comp.

(** *** The answer relayed from the backend *)

(** C8: when an admitted request's outbound call returns, the answer carries
    the backend's content and status code as they are and is tallied SUCCESS;
    its headers are built from the backend's by dropping every name that
    lower-cases to content-encoding, content-length, transfer-encoding or
    connection: none of those is present, every other name is, each entry is
    one of the backend's, and when the backend's names are distinct (as the
    items of its case-insensitive header dict are) the headers are exactly
    the filtered list. *)
Theorem backend_response_is_relayed cfg backend clk req st swept count reason st2
    call response :
  cleanup_old_data (clk_cleanup clk) st = Ok swept ->
  is_ip_blocked (clk_blocked clk) (get_real_ip req) swept = Ok false ->
  check_rate_limit cfg (clk_check clk) (get_real_ip req) swept = ((true, count, reason), st2) ->
  build_call cfg req = Ok call ->
  backend call = Ok response ->
  exists r,
    proxy_request cfg backend clk req st = Ok (r, log_request "SUCCESS" st2)
    /\ resp_status r = br_status_code response
    /\ resp_body r = RawBody (br_content response)
    /\ (forall k v, (k, v) ∈ resp_headers r ->
                    (k, v) ∈ br_headers response /\ lower k ∉ excluded_headers)
    /\ (forall k, k ∈ (resp_headers r).*1 <->
                  k ∈ (br_headers response).*1 /\ lower k ∉ excluded_headers)
    /\ (NoDup (br_headers response).*1 ->
        resp_headers r
        = filter (fun kv => lower kv.1 ∉ excluded_headers) (br_headers response)).
Proof.
  intros Hsw Hnb Hchk Hcall Hresp.
  exists (relay response). split.
  { rewrite (proxy_request_admitted _ _ _ _ _ _ _ _ _ Hsw Hnb Hchk).
    unfold forward. by rewrite Hcall, bind_Ok, Hresp. }
  split; [done|]. split; [done|]. unfold relay. simpl.
  split.
  { intros k v [Hin Hkeep]%dict_comp_elem. split; [done|].
    by apply bool_decide_eq_true in Hkeep. }
  split.
  { intros k. rewrite dict_comp_keys. unfold response_header_kept.
    by rewrite bool_decide_eq_true. }
  intros Hnd. rewrite dict_comp_NoDup by done.
  apply list_filter_iff. intros [k v]. simpl. unfold response_header_kept.
  apply bool_decide_spec.
Qed.

(** *** The outbound call *)

(** Methods other than GET and POST: body, query parameters and the kept
    headers all go out. *)
Lemma build_call_other_method cfg req :
  req_method req <> "GET" -> req_method req <> "POST" ->
  build_call cfg req
  = Ok (mkCall (req_method req)
          (rstrip_slash (BACKEND_URL cfg) +:+ "/" +:+ req_path req)
          (Some (req_args req))
          (dict_comp request_header_kept (req_headers req))
          (Data (req_get_data req)) 30).
Proof.
  intros Hget Hpost. unfold build_call. cbv zeta.
  by rewrite !bool_decide_eq_false_2.
Qed.

(** POST that is neither multipart nor JSON: body and kept headers go out,
    without [params=]. *)
Lemma build_call_raw_post cfg req :
  req_method req = "POST" ->
  truthy (req_content_type req)
    && contains "multipart/form-data" (default "" (req_content_type req)) = false ->
  req_is_json req = false ->
  build_call cfg req
  = Ok (mkCall "POST"
          (rstrip_slash (BACKEND_URL cfg) +:+ "/" +:+ req_path req)
          None
          (dict_comp request_header_kept (req_headers req))
          (Data (req_get_data req)) 30).
Proof.
  intros Hpost Hmulti Hjson. unfold build_call. cbv zeta.
  rewrite Hpost, Hmulti, Hjson. done.
Qed.

Lemma request_headers_kept (hs : list (string * string)) k :
  k ∈ (dict_comp request_header_kept hs).*1 <->
  k ∈ hs.*1 /\ lower k <> "host" /\ lower k <> "content-length".
Proof.
  rewrite dict_comp_keys. unfold request_header_kept.
  rewrite bool_decide_eq_true, !not_elem_of_cons. split.
  - intros (? & ? & ? & _). done.
  - intros (? & ? & ?). repeat split; try done. apply not_elem_of_nil.
Qed.

(** C7 fails for POST: for [POST /post?a=1] with a text/plain body the call
    handed to [requests.post] carries the body and the kept headers but no
    query parameters, so the backend never sees [a=1]; the same request sent
    with PUT carries them. *)
Theorem raw_post_drops_query_parameters :
  build_call default_config (raw_request "POST")
  = Ok (mkCall "POST" "https://httpbin.org/post" None
          [("Content-Type", "text/plain"); ("X-Trace", "7")] (Data "hello") 30)
  /\ build_call default_config (raw_request "PUT")
     = Ok (mkCall "PUT" "https://httpbin.org/post" (Some [("a", "1")])
             [("Content-Type", "text/plain"); ("X-Trace", "7")] (Data "hello") 30)
  /\ fst <$> proxy_request default_config query_echo (mkClock 0 0 0 0)
               (raw_request "POST") (mkState ∅ ∅ ∅)
     = Ok (mkResponse (RawBody "no query") 200 [])
  /\ fst <$> proxy_request default_config query_echo (mkClock 0 0 0 0)
               (raw_request "PUT") (mkState ∅ ∅ ∅)
     = Ok (mkResponse (RawBody "query received") 200 []).
Proof. repeat split; vm_compute; reflexivity. Qed.

(** * Further properties *)

(** ** The client identity *)

Lemma before_comma_idem s : before_comma (before_comma s) = before_comma s.
Proof.
  induction s as [|c s IH]; simpl; [done|].
  destruct (Ascii.eqb c ",") eqn:Hc; simpl; [done|]. by rewrite Hc, IH.
Qed.

Lemma before_comma_cons c s :
  before_comma (String c s) = String c s ->
  Ascii.eqb c "," = false /\ before_comma s = s.
Proof.
  simpl. destruct (Ascii.eqb c ","); [done|]. by intros [= ?].
Qed.

Lemma before_comma_append s rest :
  before_comma s = s -> before_comma (s +:+ String "," rest) = s.
Proof.
  induction s as [|c s IH]; simpl; [done|].
  intros [Hc Hs]%before_comma_cons. rewrite Hc. by rewrite (IH Hs).
Qed.

Lemma before_comma_lstrip s : before_comma s = s -> before_comma (lstrip s) = lstrip s.
Proof.
  induction s as [|c s IH]; [done|].
  intros H. pose proof (before_comma_cons _ _ H) as [_ Hs]. simpl.
  destruct (py_isspace c); [by apply IH | done].
Qed.

Lemma before_comma_rstrip_by drop s :
  before_comma s = s -> before_comma (rstrip_by drop s) = rstrip_by drop s.
Proof.
  induction s as [|c s IH]; [done|].
  intros [Hc Hs]%before_comma_cons. specialize (IH Hs). simpl.
  destruct (rstrip_by drop s) as [|d r].
  - destruct (drop c); simpl; [done|]. by rewrite Hc.
  - simpl in *. rewrite Hc. by rewrite IH.
Qed.

Lemma lstrip_head s :
  lstrip s = "" \/ exists c r, lstrip s = String c r /\ py_isspace c = false.
Proof.
  induction s as [|c s IH]; simpl; [by left|].
  destruct (py_isspace c) eqn:Hc; [done|]. right. by exists c, s.
Qed.

Lemma rstrip_by_idem drop s : rstrip_by drop (rstrip_by drop s) = rstrip_by drop s.
Proof.
  induction s as [|c s IH]; simpl; [done|].
  destruct (rstrip_by drop s) as [|d r] eqn:Hr.
  - destruct (drop c) eqn:Hc; simpl; [done|]. by rewrite Hc.
  - change (rstrip_by drop (String c (String d r)))
      with (match rstrip_by drop (String d r) with
            | "" => if drop c then "" else String c ""
            | r' => String c r'
            end).
    by rewrite IH.
Qed.

Lemma rstrip_by_head drop c s :
  drop c = false -> exists r, rstrip_by drop (String c s) = String c r.
Proof.
  intros Hc. simpl. destruct (rstrip_by drop s); [rewrite Hc|]; by eexists.
Qed.

Lemma strip_idem s : strip (strip s) = strip s.
Proof.
  unfold strip. destruct (lstrip_head s) as [->|(c & r & -> & Hc)]; [done|].
  destruct (rstrip_by_head py_isspace c r Hc) as [r' Hr'].
  rewrite Hr'. simpl. rewrite Hc. rewrite <- Hr'. apply rstrip_by_idem.
Qed.

Lemma headers_get_first name hs pre k v post :
  hs = pre ++ (k, v) :: post ->
  lower k = lower name ->
  Forall (fun kv : string * string => lower kv.1 <> lower name) pre ->
  headers_get name hs = Some v.
Proof.
  intros -> Hk Hpre. unfold headers_get.
  induction Hpre as [|[k0 v0] pre Hk0 _ IH]; simpl.
  - by rewrite bool_decide_eq_true_2.
  - by rewrite bool_decide_eq_false_2.
Qed.

(** X1: when the first header named X-Forwarded-For, in any letter case,
    has a non-empty value, the client identity is the part of that value
    before its first comma, stripped of surrounding white space, whatever
    X-Real-IP and the peer address are; it holds no comma and no white space
    at either end. *)
Theorem get_real_ip_forwarded req pre k v post :
  req_headers req = pre ++ (k, v) :: post ->
  lower k = "x-forwarded-for" ->
  Forall (fun kv : string * string => lower kv.1 <> "x-forwarded-for") pre ->
  v <> "" ->
  get_real_ip req = strip (before_comma v)
  /\ before_comma (get_real_ip req) = get_real_ip req
  /\ strip (get_real_ip req) = get_real_ip req.
Proof.
  intros Hhs Hk Hpre Hv.
  assert (Hip : get_real_ip req = strip (before_comma v)).
  { unfold get_real_ip.
    rewrite (headers_get_first "X-Forwarded-For" _ pre k v post Hhs Hk Hpre). simpl.
    by destruct v. }
  rewrite Hip. split; [done|]. split; [|apply strip_idem].
  unfold strip. apply before_comma_rstrip_by, before_comma_lstrip, before_comma_idem.
Qed.

(** X2: the identity is the caller's choice: for any non-empty string [id]
    without comma and without white space at its ends, a request whose first
    header is X-Forwarded-For (in any letter case) with a value that starts
    with [id] and a comma is taken to come from [id], whatever else the
    request carries. *)
Theorem get_real_ip_chosen_by_caller k id rest req :
  lower k = "x-forwarded-for" ->
  id <> "" ->
  before_comma id = id ->
  strip id = id ->
  get_real_ip (with_header k (id +:+ String "," rest) req) = id.
Proof.
  intros Hk Hid Hcomma Hstrip. unfold get_real_ip, with_header, headers_get. simpl.
  rewrite bool_decide_eq_true_2 by done. simpl.
  assert (Hne : nonempty (id +:+ String "," rest) = true) by (by destruct id).
  rewrite Hne. by rewrite before_comma_append.
Qed.

(** X3: the identity is the empty string only when a non-empty
    X-Forwarded-For value has nothing but white space before its first comma
    (or end); X-Real-IP, the peer address and the "unknown" fallback never
    give an empty identity. *)
Theorem get_real_ip_empty req :
  get_real_ip req = "" ->
  exists v,
    headers_get "X-Forwarded-For" (req_headers req) = Some v
    /\ v <> ""
    /\ strip (before_comma v) = "".
Proof.
  unfold get_real_ip.
  destruct (headers_get "X-Forwarded-For" (req_headers req)) as [v|]; simpl.
  - destruct (nonempty v) eqn:Hv.
    + intros Hempty. exists v. split; [done|]. split; [by destruct v | done].
    + destruct (headers_get "X-Real-IP" (req_headers req)) as [[|c w]|]; simpl; try done;
        destruct (req_remote_addr req) as [[|a w']|]; simpl; done.
  - destruct (headers_get "X-Real-IP" (req_headers req)) as [[|c w]|]; simpl; try done;
      destruct (req_remote_addr req) as [[|a w']|]; simpl; done.
Qed.

(** ** Sweeps compose *)

Lemma popleft_while_twice c1 c2 d :
  popleft_while c2 (popleft_while c1 d) = popleft_while (Z.max c1 c2) d.
Proof.
  destruct (Z.max_spec c1 c2) as [[Hlt ->]|[Hle ->]];
    induction d as [|t d IH]; simpl; try done.
  - destruct (Z.ltb_spec t c1), (Z.ltb_spec t c2); try lia; try done.
    simpl. by rewrite (proj2 (Z.ltb_lt t c2)).
    simpl. by rewrite (proj2 (Z.ltb_ge t c2)).
  - destruct (Z.ltb_spec t c1); [done|].
    simpl. by rewrite (proj2 (Z.ltb_ge t c2)) by lia.
Qed.

Lemma sweep_twice a b st : sweep b (sweep a st) = sweep (Z.max a b) st.
Proof.
  unfold sweep. simpl. f_equal.
  - apply map_eq; intros ip. rewrite !lookup_omap.
    destruct (ip_requests st !! ip) as [d|]; simpl; [|done].
    unfold prune at 2. unfold prune at 2.
    replace (Z.max a b - 3600) with (Z.max (a - 3600) (b - 3600)) by lia.
    rewrite <- popleft_while_twice.
    destruct (popleft_while (a - 3600) d) as [|t d']; simpl; [done|].
    reflexivity.
  - apply map_eq; intros ip. rewrite !lookup_omap.
    destruct (blocked_ips st !! ip) as [e|]; simpl; [|done]. unfold expire.
    destruct (Z.ltb_spec e a), (Z.ltb_spec e (Z.max a b)); simpl; try lia; try done.
    + destruct (Z.ltb_spec e b); [done | lia].
    + destruct (Z.ltb_spec e b); [lia | done].
Qed.

(** X4: two sweeps in a row amount to one sweep at the later of the two
    readings; in particular sweeping twice at the same time changes nothing
    more. *)
Theorem cleanup_old_data_twice a b st :
  (st1 ← cleanup_old_data a st; cleanup_old_data b st1)
  = cleanup_old_data (Z.max a b) st
  /\ (st1 ← cleanup_old_data a st; cleanup_old_data a st1) = cleanup_old_data a st.
Proof.
  rewrite !cleanup_old_data_sweep, !bind_Ok, !cleanup_old_data_sweep.
  split; f_equal; [apply sweep_twice|].
  rewrite sweep_twice. by rewrite Z.max_id.
Qed.

(** ** Clients do not interfere *)

(** [proxy_request] returns the tables [step] gives, or raises. *)
Lemma proxy_request_step cfg backend clk req st :
  exists st',
    step cfg (EProxy backend clk req) st = Ok st'
    /\ ((exists r, proxy_request cfg backend clk req st = Ok (r, st'))
        \/ (exists e, proxy_request cfg backend clk req st = Raise e)).
Proof.
  unfold step, proxy_request.
  destruct (proxy_request_body cfg backend clk req st) as [[r|e] st'];
    (exists st'; split; [done|]); [left | right]; by eexists.
Qed.

(** X17: a proxied request changes neither the deque nor the block entry of
    any client other than the one it comes from: for those the tables are as
    the opening sweep leaves them, whichever branch answers the request.
    [proxy_request] returns these tables, unless the request finds an active
    block on whose unblock time [datetime.fromtimestamp] raises; the tables
    are then left the same way. *)
Theorem proxy_request_other_client cfg backend clk req st other :
  get_real_ip req <> other ->
  exists swept st',
    cleanup_old_data (clk_cleanup clk) st = Ok swept
    /\ step cfg (EProxy backend clk req) st = Ok st'
    /\ ((exists r, proxy_request cfg backend clk req st = Ok (r, st'))
        \/ (exists e unblock_time,
               proxy_request cfg backend clk req st = Raise e
               /\ blocked_ips swept !! get_real_ip req = Some unblock_time
               /\ clk_blocked clk < unblock_time
               /\ fromtimestamp_error unblock_time = Some e))
    /\ ip_requests st' !! other = ip_requests swept !! other
    /\ blocked_ips st' !! other = blocked_ips swept !! other.
Proof.
  intros Hne. exists (sweep (clk_cleanup clk) st).
  destruct (step_proxy_frame cfg backend clk req st other Hne) as (st' & Hstep & ? & ?).
  destruct (proxy_request_step cfg backend clk req st) as (st'' & Hstep' & Hres).
  rewrite Hstep in Hstep'. injection Hstep' as <-.
  exists st'. split; [apply cleanup_old_data_sweep|]. split; [done|].
  split; [|done]. destruct Hres as [Hok | [e He]]; [by left | right].
  destruct (proxy_request_raises _ _ _ _ _ _ He) as (u & ? & ? & ?). by exists e, u.
Qed.

(** ** The life of a block *)

Lemma proxy_request_blocked cfg backend clk req st e :
  blocked_ips (sweep (clk_cleanup clk) st) !! get_real_ip req = Some e ->
  clk_blocked clk < e ->
  fromtimestamp_error e = None ->
  proxy_request cfg backend clk req st
  = Ok (blocked_reply (Z.quot (e - clk_remaining clk) 60) e,
        log_request "BLOCKED" (sweep (clk_cleanup clk) st)).
Proof.
  intros Hsw Hlive Hdate. rewrite proxy_request_unfold. cbv zeta. rewrite Hsw.
  rewrite (proj2 (Z.ltb_lt _ _) Hlive). unfold fromtimestamp. by rewrite Hdate.
Qed.

Lemma step_blocked cfg backend clk req st e :
  blocked_ips (sweep (clk_cleanup clk) st) !! get_real_ip req = Some e ->
  clk_blocked clk < e ->
  step cfg (EProxy backend clk req) st
  = Ok (log_request "BLOCKED" (sweep (clk_cleanup clk) st)).
Proof.
  intros Hsw Hlive. rewrite step_proxy_unfold. cbv zeta. rewrite Hsw.
  by rewrite (proj2 (Z.ltb_lt _ _) Hlive).
Qed.

Lemma sweep_blocked_keep now st ip e :
  blocked_ips st !! ip = Some e -> now <= e ->
  blocked_ips (sweep now st) !! ip = Some e.
Proof.
  intros He Hnow. rewrite sweep_blocked_lookup, He. simpl. unfold expire.
  destruct (Z.ltb_spec e now); [lia | done].
Qed.

Lemma sweep_log_of_suffix now st ip :
  exists aged, log_of st ip = aged ++ log_of (sweep now st) ip.
Proof.
  rewrite sweep_log_of.
  destruct (popleft_while_suffix (now - 3600) (log_of st ip)) as (aged & H & _).
  by exists aged.
Qed.

Lemma step_keeps_block cfg ip e ev st :
  blocked_ips st !! ip = Some e ->
  keeps_block ip e ev ->
  exists st',
    step cfg ev st = Ok st'
    /\ blocked_ips st' !! ip = Some e
    /\ exists aged, log_of st ip = aged ++ log_of st' ip.
Proof.
  intros He Hkeep. destruct ev as [backend clk req | ip' | now]; cbn [keeps_block] in Hkeep.
  - destruct Hkeep as [Hsw Hblk].
    pose proof (sweep_blocked_keep _ _ _ _ He Hsw) as He1.
    pose proof (sweep_log_of_suffix (clk_cleanup clk) st ip) as Hsuffix.
    destruct (decide (get_real_ip req = ip)) as [Hip|Hne].
    + rewrite (step_blocked cfg backend clk req st e);
        [|by rewrite Hip|by apply Hblk].
      eexists. split; [done|]. simpl. split; [done|].
      exact Hsuffix.
    + destruct (step_proxy_frame cfg backend clk req st ip Hne)
        as (st' & -> & Hreq & Hb).
      exists st'. split; [done|].
      split; [by rewrite Hb|]. unfold log_of at 2. rewrite Hreq.
      exact Hsuffix.
  - destruct (unblock_ip_tables ip' st) as (r & st' & Hun & Hreq & Hblk & _).
    simpl step. rewrite Hun, fmap_Ok. exists st'. split; [done|].
    split; [by rewrite Hblk, lookup_delete_ne|].
    exists []. unfold log_of. by rewrite Hreq.
  - simpl step. rewrite cleanup_old_data_sweep. eexists. split; [done|].
    split; [by apply sweep_blocked_keep|]. apply sweep_log_of_suffix.
Qed.

Lemma run_keeps_block cfg ip e evs : forall st,
  blocked_ips st !! ip = Some e ->
  Forall (keeps_block ip e) evs ->
  exists st',
    run cfg evs st = Ok st'
    /\ blocked_ips st' !! ip = Some e
    /\ exists aged, log_of st ip = aged ++ log_of st' ip.
Proof.
  induction evs as [|ev evs IH]; intros st He Hkeep; simpl.
  - exists st. split; [done|]. split; [done|]. by exists [].
  - apply Forall_cons in Hkeep as [Hev Hkeep].
    destruct (step_keeps_block cfg ip e ev st He Hev) as (st1 & -> & He1 & aged1 & Hlog1).
    rewrite bind_Ok.
    destruct (IH st1 He1 Hkeep) as (st' & -> & He' & aged2 & Hlog2).
    exists st'. split; [done|]. split; [done|].
    exists (aged1 ++ aged2). by rewrite Hlog1, Hlog2, app_assoc.
Qed.

(** X5: a block holds until it lapses or is lifted.  If client [ip] has a
    block entry running until [expiry] and, whatever other clients do, no
    sweep happens after [expiry], no unblock call names [ip] and every request
    of [ip] has its block test before [expiry], then none of these requests
    is recorded or forwarded: the entry stays as it is, the client's deque
    only loses aged entries, and the request is tallied BLOCKED.  When the
    platform turns [expiry] into a date, the answer is status 429 with the
    whole minutes left until [expiry] and with [expiry] as the unblock
    time. *)
Theorem block_holds_until_expiry cfg ip expiry st0 evs backend clk req :
  blocked_ips st0 !! ip = Some expiry ->
  get_real_ip req = ip ->
  Forall (keeps_block ip expiry) (evs ++ [EProxy backend clk req]) ->
  exists st st',
    run cfg evs st0 = Ok st
    /\ step cfg (EProxy backend clk req) st = Ok st'
    /\ (fromtimestamp_error expiry = None ->
        proxy_request cfg backend clk req st
        = Ok (mkResponse
                (JsonBody
                   [("error", JStr "IP temporarily blocked");
                    ("reason", JStr "Too many requests detected");
                    ("remaining_minutes", JInt (Z.quot (expiry - clk_remaining clk) 60));
                    ("unblock_time", JTime expiry)])
                429 [],
              st'))
    /\ blocked_ips st' !! ip = Some expiry
    /\ stats st' = bump "total" (bump "BLOCKED" (stats st))
    /\ tally "BLOCKED" st' = tally "BLOCKED" st + 1
    /\ exists aged, log_of st0 ip = aged ++ log_of st' ip.
Proof.
  intros He Hip Hkeep. apply Forall_app in Hkeep as [Hevs Hlast].
  apply Forall_cons in Hlast as [[Hsw Hblk] _].
  destruct (run_keeps_block cfg ip expiry evs st0 He Hevs) as (st & Hrun & He' & aged & Hlog).
  pose proof (sweep_blocked_keep _ _ _ _ He' Hsw) as Hsw'.
  exists st, (log_request "BLOCKED" (sweep (clk_cleanup clk) st)).
  split; [done|].
  split. { apply (step_blocked _ _ _ _ _ expiry); [by rewrite Hip | by apply Hblk]. }
  split. { intros Hdate. rewrite (proxy_request_blocked _ _ _ _ _ expiry);
             [done | by rewrite Hip | by apply Hblk | done]. }
  split; [done|]. split; [done|].
  split. { by rewrite tally_log_request_same. }
  destruct (sweep_log_of_suffix (clk_cleanup clk) st ip) as (aged' & Hlog').
  exists (aged ++ aged'). rewrite Hlog, Hlog', app_assoc. done.
Qed.

Lemma decide_request_not_blocked_reply cfg backend clk req st m u :
  fst (decide_request cfg backend clk req st) <> blocked_reply m u.
Proof.
  unfold decide_request. cbv zeta.
  destruct (DDOS_REQUESTS_PER_MINUTE cfg <=? _); [discriminate|].
  destruct (REQUESTS_PER_HOUR cfg <? _); [discriminate|].
  unfold forward. destruct (_ ≫= _) as [r|e]; [discriminate|].
  destruct (exc_is_timeout e); [discriminate|].
  destruct (exc_is_connection_error e); discriminate.
Qed.

(** X6: a block entry whose unblock time is not later than the reading of
    the block test never blocks: the request is handed to the rate check,
    which records it, and the answer is not the BLOCKED one.  When the
    unblock time is earlier than the reading of the sweep the entry is gone
    before the test. *)
Theorem lapsed_block_does_not_block cfg backend clk req st expiry :
  blocked_ips st !! get_real_ip req = Some expiry ->
  expiry <= clk_blocked clk ->
  exists swept r st',
    cleanup_old_data (clk_cleanup clk) st = Ok swept
    /\ is_ip_blocked (clk_blocked clk) (get_real_ip req) swept = Ok false
    /\ (expiry < clk_cleanup clk -> blocked_ips swept !! get_real_ip req = None)
    /\ proxy_request cfg backend clk req st = Ok (r, st')
    /\ ip_requests st' !! get_real_ip req
       = Some (log_of swept (get_real_ip req) ++ [clk_check clk])
    /\ forall m u, r <> blocked_reply m u.
Proof.
  intros He Hlapsed. exists (sweep (clk_cleanup clk) st).
  assert (Hsw : blocked_ips (sweep (clk_cleanup clk) st) !! get_real_ip req
                = expire (clk_cleanup clk) expiry)
    by (by rewrite sweep_blocked_lookup, He).
  assert (Hnb : match blocked_ips (sweep (clk_cleanup clk) st) !! get_real_ip req with
                | Some e => clk_blocked clk <? e
                | None => false
                end = false).
  { rewrite Hsw. unfold expire. destruct (expiry <? clk_cleanup clk); [done|].
    by apply Z.ltb_ge. }
  pose proof (decide_request_requests cfg backend clk req (sweep (clk_cleanup clk) st)) as Hr.
  pose proof (decide_request_not_blocked_reply cfg backend clk req
                (sweep (clk_cleanup clk) st)) as Hnot.
  assert (Hreq : proxy_request cfg backend clk req st
                 = Ok (decide_request cfg backend clk req (sweep (clk_cleanup clk) st))).
  { rewrite proxy_request_unfold. cbv zeta.
    destruct (blocked_ips (sweep (clk_cleanup clk) st) !! get_real_ip req); [|done].
    by rewrite Hnb. }
  destruct (decide_request cfg backend clk req (sweep (clk_cleanup clk) st)) as [r st'].
  exists r, st'. split; [apply cleanup_old_data_sweep|].
  split; [by rewrite is_ip_blocked_lookup, Hnb|].
  split. { intros Hgone. rewrite Hsw. unfold expire.
           by rewrite (proj2 (Z.ltb_lt _ _) Hgone). }
  split; [done|]. simpl in *.
  split; [by rewrite Hr, lookup_insert_eq | exact Hnot].
Qed.

(** X7: the minutes a BLOCKED answer reports.  For a block set at [t0] to
    [t0 + BLOCK_DURATION_MINUTES * 60], an unblock time the platform turns
    into a date, a request whose readings lie between [t0] and the unblock
    time is answered 429 with that unblock time and a number of remaining
    minutes between 0 and [BLOCK_DURATION_MINUTES]: the whole minutes left,
    rounded down. *)
Theorem blocked_reply_remaining_minutes cfg backend clk req st t0 :
  blocked_ips st !! get_real_ip req = Some (t0 + BLOCK_DURATION_MINUTES cfg * 60) ->
  clk_cleanup clk <= clk_blocked clk ->
  clk_blocked clk < t0 + BLOCK_DURATION_MINUTES cfg * 60 ->
  t0 <= clk_remaining clk <= t0 + BLOCK_DURATION_MINUTES cfg * 60 ->
  fromtimestamp_error (t0 + BLOCK_DURATION_MINUTES cfg * 60) = None ->
  exists m st',
    proxy_request cfg backend clk req st
    = Ok (mkResponse
            (JsonBody
               [("error", JStr "IP temporarily blocked");
                ("reason", JStr "Too many requests detected");
                ("remaining_minutes", JInt m);
                ("unblock_time", JTime (t0 + BLOCK_DURATION_MINUTES cfg * 60))])
            429 [],
          st')
    /\ 0 <= m <= BLOCK_DURATION_MINUTES cfg
    /\ 60 * m <= t0 + BLOCK_DURATION_MINUTES cfg * 60 - clk_remaining clk < 60 * m + 60.
Proof.
  intros He Hclk Hlive Hrem Hdate.
  set (e := t0 + BLOCK_DURATION_MINUTES cfg * 60) in *.
  exists (Z.quot (e - clk_remaining clk) 60). eexists. split.
  { rewrite (proxy_request_blocked _ _ _ _ _ e); [done| |done|done].
    apply sweep_blocked_keep; [done | lia]. }
  rewrite Z.quot_div_nonneg by lia.
  pose proof (Z.div_mod (e - clk_remaining clk) 60) as Hdm.
  pose proof (Z.mod_pos_bound (e - clk_remaining clk) 60) as Hmod.
  assert (0 <= (e - clk_remaining clk) / 60) by (apply Z.div_pos; lia).
  split; [|lia]. split; [done|]. unfold e in *. lia.
Qed.

(** ** Degenerate thresholds *)

Lemma count_since_snoc since d t :
  since < t -> count_since since (d ++ [t]) = count_since since d + 1.
Proof.
  intros Ht. unfold count_since. rewrite filter_app, length_app.
  rewrite filter_cons_True by done. simpl. lia.
Qed.

(** X14: with [REQUESTS_PER_HOUR] zero or negative no request is ever
    forwarded: what [proxy_request] returns or raises, and the tables it
    leaves, do not depend on the backend; none of the four tallies of a
    forwarded request moves; an answer it returns is a 429; it raises only
    when [datetime.fromtimestamp] does, on the unblock time of the active
    block the request has found. *)
Theorem nothing_forwarded_without_quota cfg clk req st :
  REQUESTS_PER_HOUR cfg <= 0 ->
  exists result st',
    (forall backend, proxy_request_body cfg backend clk req st = (result, st'))
    /\ (forall label, label ∈ ["SUCCESS"; "TIMEOUT"; "CONNECTION_ERROR"; "ERROR"] ->
                      tally label st' = tally label st)
    /\ match result with
       | Ok r => resp_status r = 429
       | Raise e =>
           exists unblock_time,
             blocked_ips st' !! get_real_ip req = Some unblock_time
             /\ clk_blocked clk < unblock_time
             /\ fromtimestamp_error unblock_time = Some e
       end.
Proof.
  intros Hzero.
  assert (Hother : forall label status s,
    label ∈ ["SUCCESS"; "TIMEOUT"; "CONNECTION_ERROR"; "ERROR"] ->
    status ∈ ["BLOCKED"; "DDOS_BLOCKED"; "RATE_LIMITED"] ->
    stats s = stats st ->
    tally label (log_request status s) = tally label st).
  { intros label status s Hl Hs Hst.
    rewrite tally_log_request_other; [unfold tally; by rewrite Hst| |].
    - intros ->. rewrite !elem_of_cons, elem_of_nil in Hl.
      rewrite !elem_of_cons, elem_of_nil in Hs.
      destruct Hl as [->|[->|[->|[->|[]]]]]; destruct Hs as [?|[?|[?|[]]]]; done.
    - intros ->. rewrite !elem_of_cons, elem_of_nil in Hl.
      destruct Hl as [?|[?|[?|[?|[]]]]]; done. }
  assert (Hdec : exists r st',
    (forall backend, decide_request cfg backend clk req (sweep (clk_cleanup clk) st) = (r, st'))
    /\ resp_status r = 429
    /\ (forall label, label ∈ ["SUCCESS"; "TIMEOUT"; "CONNECTION_ERROR"; "ERROR"] ->
                      tally label st' = tally label st)).
  { unfold decide_request. cbv zeta.
    destruct (DDOS_REQUESTS_PER_MINUTE cfg <=? _).
    { eexists _, _. split; [done|]. split; [done|]. intros label Hl.
      apply Hother; [done | repeat constructor | done]. }
    assert (Hlen : REQUESTS_PER_HOUR cfg
                   < Z.of_nat (length (log_of (sweep (clk_cleanup clk) st) (get_real_ip req)
                                       ++ [clk_check clk])))
      by (rewrite length_app; simpl; lia).
    rewrite (proj2 (Z.ltb_lt _ _) Hlen). eexists _, _. split; [done|]. split; [done|].
    intros label Hl. apply Hother; [done | repeat constructor | done]. }
  destruct Hdec as (r & st' & Hdec & Hstatus & Htally).
  assert (Hunf := fun b => proxy_request_body_unfold cfg b clk req st). cbv zeta in Hunf.
  destruct (blocked_ips (sweep (clk_cleanup clk) st) !! get_real_ip req) as [u|] eqn:Hu;
    [destruct (Z.ltb_spec (clk_blocked clk) u)|].
  - eexists _, _. split; [intros b; apply Hunf|].
    split. { intros label Hl. apply Hother; [done | repeat constructor | done]. }
    unfold fromtimestamp. destruct (fromtimestamp_error u) as [e|] eqn:He; simpl; [|done].
    exists u. split; [exact Hu|]. by split.
  - exists (Ok r), st'. split; [|done]. intros b. by rewrite Hunf, Hdec.
  - exists (Ok r), st'. split; [|done]. intros b. by rewrite Hunf, Hdec.
Qed.

(** X15: with [DDOS_REQUESTS_PER_MINUTE] at most 1 the request just recorded
    reaches the threshold by itself: no request is forwarded, every request
    is tallied BLOCKED or DDOS_BLOCKED and leaves its client with a block
    entry, and an answer [proxy_request] returns is the BLOCKED or the DDoS
    one, with status 429; it raises only when [datetime.fromtimestamp] does,
    on the unblock time of the active block the request has found. *)
Theorem every_request_blocks_at_threshold_one cfg clk req st :
  DDOS_REQUESTS_PER_MINUTE cfg <= 1 ->
  exists result st',
    (forall backend, proxy_request_body cfg backend clk req st = (result, st'))
    /\ is_Some (blocked_ips st' !! get_real_ip req)
    /\ (stats st' = bump "total" (bump "BLOCKED" (stats st))
        \/ stats st' = bump "total" (bump "DDOS_BLOCKED" (stats st)))
    /\ match result with
       | Ok r =>
           (exists m u,
               r = mkResponse
                     (JsonBody
                        [("error", JStr "IP temporarily blocked");
                         ("reason", JStr "Too many requests detected");
                         ("remaining_minutes", JInt m);
                         ("unblock_time", JTime u)])
                     429 []
               /\ blocked_ips st' !! get_real_ip req = Some u)
           \/ r = mkResponse
                    (JsonBody
                       [("error", JStr "IP blocked due to suspicious activity");
                        ("reason", JStr "DDoS detected");
                        ("block_duration_minutes", JInt (BLOCK_DURATION_MINUTES cfg))])
                    429 []
       | Raise e =>
           exists unblock_time,
             blocked_ips st' !! get_real_ip req = Some unblock_time
             /\ clk_blocked clk < unblock_time
             /\ fromtimestamp_error unblock_time = Some e
       end.
Proof.
  intros Hone.
  assert (Hdec : forall backend,
    decide_request cfg backend clk req (sweep (clk_cleanup clk) st)
    = (ddos_reply cfg "DDoS detected",
       log_request "DDOS_BLOCKED"
         (set_blocked_ips
            (<[get_real_ip req := clk_check clk + BLOCK_DURATION_MINUTES cfg * 60]>
               (blocked_ips (sweep (clk_cleanup clk) st)))
            (set_ip_requests
               (<[get_real_ip req :=
                    log_of (sweep (clk_cleanup clk) st) (get_real_ip req) ++ [clk_check clk]]>
                  (ip_requests (sweep (clk_cleanup clk) st)))
               (sweep (clk_cleanup clk) st))))).
  { intros backend. unfold decide_request. cbv zeta.
    assert (Hcount : DDOS_REQUESTS_PER_MINUTE cfg
                     <= count_since (clk_check clk - 60)
                          (log_of (sweep (clk_cleanup clk) st) (get_real_ip req)
                           ++ [clk_check clk])).
    { rewrite count_since_snoc by lia. unfold count_since. lia. }
    by rewrite (proj2 (Z.leb_le _ _) Hcount). }
  assert (Hunf := fun b => proxy_request_body_unfold cfg b clk req st). cbv zeta in Hunf.
  destruct (blocked_ips (sweep (clk_cleanup clk) st) !! get_real_ip req) as [u|] eqn:Hu;
    [destruct (Z.ltb_spec (clk_blocked clk) u)|].
  - eexists _, _. split; [intros b; apply Hunf|].
    split. { change (is_Some (blocked_ips (sweep (clk_cleanup clk) st) !! get_real_ip req)).
             by rewrite Hu. }
    split; [by left|].
    unfold fromtimestamp. destruct (fromtimestamp_error u) as [e|] eqn:He; simpl.
    + exists u. split; [exact Hu|]. by split.
    + left. eexists _, u. split; [reflexivity|]. exact Hu.
  - eexists _, _. split; [intros b; by rewrite Hunf, Hdec|].
    split; [simpl; by rewrite lookup_insert_eq|]. split; [by right|]. by right.
  - eexists _, _. split; [intros b; by rewrite Hunf, Hdec|].
    split; [simpl; by rewrite lookup_insert_eq|]. split; [by right|]. by right.
Qed.

(** ** Unblocking does not forget *)

Lemma count_since_popleft_while cutoff since d :
  cutoff <= since + 1 ->
  count_since since (popleft_while cutoff d) = count_since since d.
Proof.
  intros Hc. induction d as [|t d IH]; simpl; [done|].
  destruct (Z.ltb_spec t cutoff); [|done].
  rewrite IH. unfold count_since. rewrite (filter_cons_False _ t) by lia. done.
Qed.

(** X16: [unblock_ip] deletes the block entry but keeps the client's deque.
    If the deque holds at least [DDOS_REQUESTS_PER_MINUTE - 1] entries newer
    than a minute before the client's next request, that request (made under
    a clock that does not go back) is answered DDOS_BLOCKED and the client is
    blocked again for the full duration. *)
Theorem unblock_ip_keeps_history cfg backend clk req st :
  DDOS_REQUESTS_PER_MINUTE cfg
    <= count_since (clk_check clk - 60) (log_of st (get_real_ip req)) + 1 ->
  clk_cleanup clk <= clk_check clk ->
  exists r0 st1 st',
    unblock_ip (get_real_ip req) st = Ok (r0, st1)
    /\ blocked_ips st1 !! get_real_ip req = None
    /\ proxy_request cfg backend clk req st1 = Ok (ddos_reply cfg "DDoS detected", st')
    /\ blocked_ips st' !! get_real_ip req
       = Some (clk_check clk + BLOCK_DURATION_MINUTES cfg * 60).
Proof.
  intros Hcount Hclk.
  destruct (unblock_ip_tables (get_real_ip req) st) as (r0 & st1 & Hun & Hreq & Hblk & _).
  exists r0, st1. eexists. split; [done|].
  assert (Hfree : blocked_ips st1 !! get_real_ip req = None)
    by (by rewrite Hblk, lookup_delete_eq).
  split; [done|].
  assert (Hlog : log_of st1 (get_real_ip req) = log_of st (get_real_ip req))
    by (unfold log_of; by rewrite Hreq).
  rewrite proxy_request_unfold. cbv zeta.
  rewrite (sweep_blocked_None _ _ _ Hfree). unfold decide_request. cbv zeta.
  assert (Hfire : DDOS_REQUESTS_PER_MINUTE cfg
                  <= count_since (clk_check clk - 60)
                       (log_of (sweep (clk_cleanup clk) st1) (get_real_ip req)
                        ++ [clk_check clk])).
  { rewrite count_since_snoc by lia.
    rewrite sweep_log_of, count_since_popleft_while by lia. by rewrite Hlog. }
  rewrite (proj2 (Z.leb_le _ _) Hfire). split; [done|].
  simpl. by rewrite lookup_insert_eq.
Qed.

(** ** Tallies *)

Lemma tally_bumped label status st st' :
  stats st' = bump "total" (bump status (stats st)) ->
  status <> "total" ->
  tally label st'
  = tally label st
    + (if bool_decide (label = "total" \/ label = status) then 1 else 0).
Proof.
  intros Hst Hstatus. unfold tally. rewrite Hst. unfold bump.
  destruct (decide (label = "total")) as [->|Hl].
  - rewrite lookup_insert_eq, lookup_insert_ne by done.
    rewrite bool_decide_eq_true_2 by (by left). done.
  - rewrite lookup_insert_ne by done.
    destruct (decide (label = status)) as [->|Hs].
    + rewrite lookup_insert_eq. rewrite bool_decide_eq_true_2 by (by right). done.
    + rewrite lookup_insert_ne by done.
      rewrite bool_decide_eq_false_2 by (intros [?|?]; done). simpl. lia.
Qed.

Lemma sum_tallies_bumped labels status st st' :
  stats st' = bump "total" (bump status (stats st)) ->
  status <> "total" ->
  NoDup labels -> "total" ∉ labels ->
  sum_tallies labels st'
  = sum_tallies labels st + (if bool_decide (status ∈ labels) then 1 else 0).
Proof.
  intros Hst Hstatus Hnd Htotal.
  induction Hnd as [|l labels Hl Hnd IH]; simpl; [done|].
  apply not_elem_of_cons in Htotal as [Hne Htotal].
  rewrite (IH Htotal), (tally_bumped l status st st' Hst Hstatus).
  destruct (decide (l = status)) as [->|Hls].
  - rewrite bool_decide_eq_true_2 by (by right).
    rewrite (bool_decide_eq_true_2 (status ∈ status :: labels)) by left.
    rewrite (bool_decide_eq_false_2 (status ∈ labels)) by done. lia.
  - rewrite bool_decide_eq_false_2 by (intros [?|?]; done).
    destruct (decide (status ∈ labels)) as [Hin|Hout].
    + rewrite !bool_decide_eq_true_2; [lia | by right | done].
    + rewrite !bool_decide_eq_false_2; [lia | | done].
      intros [?|?]%elem_of_cons; done.
Qed.

Lemma sum_tallies_same labels st st' :
  stats st' = stats st -> sum_tallies labels st' = sum_tallies labels st.
Proof.
  intros Hst. induction labels as [|l labels IH]; simpl; [done|].
  rewrite IH. unfold tally. by rewrite Hst.
Qed.

(** Every proxied request is tallied once, under one of seven labels. *)
Lemma step_proxy_stats cfg backend clk req st :
  exists label st',
    label ∈ ["SUCCESS"; "TIMEOUT"; "CONNECTION_ERROR"; "ERROR"; "BLOCKED";
             "DDOS_BLOCKED"; "RATE_LIMITED"]
    /\ step cfg (EProxy backend clk req) st = Ok st'
    /\ stats st' = bump "total" (bump label (stats st)).
Proof.
  rewrite step_proxy_unfold. cbv zeta.
  assert (Hdec : exists label st',
    label ∈ ["SUCCESS"; "TIMEOUT"; "CONNECTION_ERROR"; "ERROR"; "BLOCKED";
             "DDOS_BLOCKED"; "RATE_LIMITED"]
    /\ Ok (decide_request cfg backend clk req (sweep (clk_cleanup clk) st)).2 = Ok st'
    /\ stats st' = bump "total" (bump label (stats st))).
  { unfold decide_request. cbv zeta.
    destruct (DDOS_REQUESTS_PER_MINUTE cfg <=? _);
      [exists "DDOS_BLOCKED"; eexists; split; [repeat constructor | done]|].
    destruct (REQUESTS_PER_HOUR cfg <? _);
      [exists "RATE_LIMITED"; eexists; split; [repeat constructor | done]|].
    unfold forward. destruct (_ ≫= _) as [r|e];
      [exists "SUCCESS"; eexists; split; [repeat constructor | done]|].
    destruct (exc_is_timeout e);
      [exists "TIMEOUT"; eexists; split; [repeat constructor | done]|].
    destruct (exc_is_connection_error e);
      [exists "CONNECTION_ERROR" | exists "ERROR"];
      (eexists; split; [repeat constructor | done]). }
  destruct (blocked_ips (sweep (clk_cleanup clk) st) !! get_real_ip req) as [e|];
    [destruct (clk_blocked clk <? e)|]; try exact Hdec.
  exists "BLOCKED". eexists. split; [repeat constructor | done].
Qed.

Lemma serve_stats cfg hit st :
  exists st',
    serve cfg hit st = Ok st'
    /\ ((logged hit = 0 /\ stats st' = stats st)
        \/ (logged hit = 1
            /\ exists label, label ∈ outcome_labels
                             /\ stats st' = bump "total" (bump label (stats st)))).
Proof.
  destruct hit as [[backend clk req | ip | now] | req | req]; cbn [serve logged].
  - destruct (step_proxy_stats cfg backend clk req st) as (label & st' & Hl & -> & Hst).
    exists st'. split; [done|]. right. split; [done|].
    exists label. split; [|done].
    unfold outcome_labels. rewrite !elem_of_cons in Hl. rewrite !elem_of_cons.
    intuition.
  - destruct (unblock_ip_tables ip st) as (r & st' & Hun & _ & _ & Hst).
    simpl step. rewrite Hun, fmap_Ok. exists st'. split; [done|]. by left.
  - simpl step. rewrite cleanup_old_data_sweep. eexists. split; [done|]. by left.
  - eexists. split; [done|]. right. split; [done|].
    exists "NOT_FOUND". split; [repeat constructor | done].
  - eexists. split; [done|]. right. split; [done|].
    exists "SERVER_ERROR". split; [repeat constructor | done].
Qed.

Lemma outcome_labels_distinct : NoDup outcome_labels /\ "total" ∉ outcome_labels.
Proof.
  split.
  - apply (bool_decide_unpack (NoDup _)). vm_compute. exact I.
  - apply (bool_decide_unpack (_ ∉ _)). vm_compute. exact I.
Qed.

Lemma outcome_label_not_total label : label ∈ outcome_labels -> label <> "total".
Proof. intros Hin ->. by apply (proj2 outcome_labels_distinct). Qed.

Lemma serve_all_tallies cfg hits : forall st0,
  exists st,
    serve_all cfg hits st0 = Ok st
    /\ tally "total" st = tally "total" st0 + logged_hits hits
    /\ sum_tallies outcome_labels st = sum_tallies outcome_labels st0 + logged_hits hits
    /\ forall label, tally label st0 <= tally label st.
Proof.
  induction hits as [|hit hits IH]; intros st0.
  - exists st0. unfold logged_hits. cbn [serve_all foldr]. repeat split; lia.
  - unfold logged_hits. cbn [serve_all foldr]. fold (logged_hits hits).
    destruct (serve_stats cfg hit st0) as (st1 & -> & Hstep). rewrite bind_Ok.
    destruct (IH st1) as (st & -> & Htotal & Hsum & Hmono).
    exists st. split; [done|].
    destruct outcome_labels_distinct as [Hnd Hnt].
    destruct Hstep as [[-> Hst] | (-> & label & Hl & Hst)].
    + assert (Ht : forall l, tally l st1 = tally l st0)
        by (intros l; unfold tally; by rewrite Hst).
      rewrite Htotal, Hsum, (sum_tallies_same _ _ _ Hst), Ht.
      split; [lia|]. split; [lia|]. intros l. rewrite <- Ht. apply Hmono.
    + pose proof (outcome_label_not_total label Hl) as Hne.
      rewrite Htotal, Hsum.
      rewrite (sum_tallies_bumped _ _ _ _ Hst Hne Hnd Hnt).
      rewrite (tally_bumped "total" _ _ _ Hst Hne).
      rewrite bool_decide_eq_true_2 by (by left).
      rewrite bool_decide_eq_true_2 by done.
      split; [lia|]. split; [lia|]. intros l. specialize (Hmono l).
      rewrite (tally_bumped l _ _ _ Hst Hne) in Hmono.
      destruct (bool_decide _); lia.
Qed.

(** X8: bookkeeping of [log_request].  Over any sequence of hits (proxied
    requests, unblock calls, health and stats reads, 404 and 500 answers)
    the "total" counter grows by the number of proxied, 404 and 500 hits,
    and so does the sum of the nine outcome counters; unblock calls and
    sweeps count nothing, and no counter ever decreases.  Counted from
    start-up, "total" is the sum of the nine outcome counters. *)
Theorem total_counts_logged_hits cfg hits st0 :
  (exists st,
      serve_all cfg hits st0 = Ok st
      /\ tally "total" st = tally "total" st0 + logged_hits hits
      /\ sum_tallies outcome_labels st = sum_tallies outcome_labels st0 + logged_hits hits
      /\ forall label, tally label st0 <= tally label st)
  /\ (exists st,
        serve_all cfg hits empty_state = Ok st
        /\ tally "total" st = logged_hits hits
        /\ sum_tallies outcome_labels st = tally "total" st).
Proof.
  split; [apply serve_all_tallies|].
  destruct (serve_all_tallies cfg hits empty_state) as (st & Hrun & Htotal & Hsum & _).
  exists st. split; [done|].
  change (tally "total" empty_state) with 0 in Htotal.
  change (sum_tallies outcome_labels empty_state) with 0 in Hsum.
  split; lia.
Qed.

(** X9: [GET /health] after any history since start-up: it answers 200,
    leaves the counters alone, and reports as total_requests the number of
    hits that were logged, which is at least the sum of the successful,
    blocked and rate limited requests it reports. *)
Theorem health_reports_consistent_totals cfg hits now stamp :
  exists st active blocked total successful denied limited st',
    serve_all cfg hits empty_state = Ok st
    /\ health cfg now stamp st
       = Ok (jsonify [("status", JStr "healthy");
                      ("backend_url", JStr (BACKEND_URL cfg));
                      ("active_ips", JInt active);
                      ("blocked_ips", JInt blocked);
                      ("total_requests", JInt total);
                      ("successful_requests", JInt successful);
                      ("blocked_requests", JInt denied);
                      ("rate_limited_requests", JInt limited);
                      ("timestamp", JTime stamp)] 200, st')
    /\ cleanup_old_data now st = Ok st'
    /\ stats st' = stats st
    /\ active = Z.of_nat (size (ip_requests st'))
    /\ blocked = Z.of_nat (size (blocked_ips st'))
    /\ total = logged_hits hits
    /\ 0 <= successful /\ 0 <= denied /\ 0 <= limited
    /\ successful + denied + limited <= total.
Proof.
  destruct (serve_all_tallies cfg hits empty_state) as (st & Hrun & Htotal & Hsum & Hmono).
  exists st. unfold health. rewrite cleanup_old_data_sweep, bind_Ok.
  eexists _, _, _, _, _, _, _. split; [done|]. split; [reflexivity|].
  split; [done|]. split; [done|]. split; [done|]. split; [done|].
  change (stats (sweep now st)) with (stats st).
  fold (tally "total" st) (tally "SUCCESS" st) (tally "BLOCKED" st) (tally "RATE_LIMITED" st).
  assert (Hzero : forall l, tally l empty_state = 0) by done.
  assert (Hnn : forall l, 0 <= tally l st) by (intros l; rewrite <- (Hzero l); apply Hmono).
  rewrite Htotal, (Hzero "total").
  split; [lia|]. split; [apply Hnn|]. split; [apply Hnn|]. split; [apply Hnn|].
  assert (Hsum0 : sum_tallies outcome_labels empty_state = 0) by done.
  rewrite Hsum0 in Hsum. unfold sum_tallies, outcome_labels in Hsum. simpl in Hsum.
  pose proof (Hnn "TIMEOUT"). pose proof (Hnn "CONNECTION_ERROR").
  pose proof (Hnn "ERROR"). pose proof (Hnn "DDOS_BLOCKED").
  pose proof (Hnn "NOT_FOUND"). pose proof (Hnn "SERVER_ERROR"). lia.
Qed.

(** ** The statistics page *)

Lemma mapM_Ok {A B : Type} (f : A -> Res B) (g : A -> B) (l : list A) :
  Forall (fun x => f x = Ok (g x)) l -> mapM f l = Ok (g <$> l).
Proof.
  induction 1 as [|x l Hx _ IH]; [done|].
  cbn [mapM]. by rewrite Hx, bind_Ok, IH.
Qed.

Lemma mapM_Raise {A B : Type} (f : A -> Res B) (l : list A) x e :
  x ∈ l -> f x = Raise e -> exists e', mapM f l = Raise e'.
Proof.
  intros Hin Hx. induction l as [|y l IH]; [by apply elem_of_nil in Hin|].
  cbn [mapM]. destruct (f y) as [b|e0] eqn:Hy; [|by eexists].
  rewrite bind_Ok. apply elem_of_cons in Hin as [->|Hin]; [congruence|].
  destruct (IH Hin) as [e' ->]. by eexists.
Qed.

(** X10: what [GET /stats] lists.  It sweeps first.  When the platform turns
    the unblock time of every block the sweep leaves into a date, it lists
    exactly the clients and the blocks the sweep leaves: every listed block
    has an unblock time not earlier than the reading of the sweep and a
    number of remaining minutes that is never negative; every listed client
    has at least one request on record, a remaining quota that is never
    negative, and used plus remaining equal to the larger of the hourly limit
    and the number used.  When the sweep leaves a block whose unblock time
    the platform does not turn into a date, [get_stats] raises. *)
Theorem get_stats_report cfg cleanup_time current_time stamp st :
  ((forall ip e, blocked_ips st !! ip = Some e -> cleanup_time <= e ->
                 fromtimestamp_error e = None) ->
   exists report st',
    get_stats cfg cleanup_time current_time stamp st = Ok (report, st')
    /\ cleanup_old_data cleanup_time st = Ok st'
    /\ sr_statistics report = stats st
    /\ sr_configuration report = cfg
    /\ Forall (fun b => blocked_ips st' !! bi_ip b = Some (bi_unblock_time b)
                        /\ cleanup_time <= bi_unblock_time b
                        /\ 0 <= bi_remaining_minutes b
                        /\ (current_time <= bi_unblock_time b ->
                            bi_remaining_minutes b
                            = (bi_unblock_time b - current_time) / 60))
              (sr_blocked_ips report)
    /\ (forall ip, ip ∈ bi_ip <$> sr_blocked_ips report <-> is_Some (blocked_ips st' !! ip))
    /\ Forall (fun iu : string * Usage =>
                 requests_this_hour iu.2 = Z.of_nat (length (log_of st' iu.1))
                 /\ 1 <= requests_this_hour iu.2
                 /\ 0 <= remaining_requests iu.2
                 /\ requests_this_hour iu.2 + remaining_requests iu.2
                    = Z.max (REQUESTS_PER_HOUR cfg) (requests_this_hour iu.2))
              (sr_ip_usage report)
    /\ (forall ip, ip ∈ (sr_ip_usage report).*1 <-> is_Some (ip_requests st' !! ip)))
  /\ (forall ip e, blocked_ips st !! ip = Some e -> cleanup_time <= e ->
                   fromtimestamp_error e <> None ->
      exists exn, get_stats cfg cleanup_time current_time stamp st = Raise exn).
Proof.
  assert (Hswept : forall ip e,
    blocked_ips (sweep cleanup_time st) !! ip = Some e
    <-> blocked_ips st !! ip = Some e /\ cleanup_time <= e).
  { intros ip e. rewrite sweep_blocked_lookup.
    destruct (blocked_ips st !! ip) as [e0|]; simpl; [|by intuition].
    unfold expire. destruct (Z.ltb_spec e0 cleanup_time).
    - split; [done|]. intros [[= ->] ?]. lia.
    - split; [by intros [= ->]|]. by intros [[= ->] _]. }
  split.
  - intros Hdates.
    unfold get_stats. rewrite cleanup_old_data_sweep, bind_Ok.
    set (st' := sweep cleanup_time st) in *.
    rewrite (mapM_Ok _ (fun kv : string * Z =>
               mkBlockedInfo kv.1 (Z.max 0 (Z.quot (kv.2 - current_time) 60)) kv.2)).
    2:{ apply Forall_forall. intros [ip e] Hin%elem_of_map_to_list.
        apply Hswept in Hin as [Hin Hge]. unfold blocked_info, fromtimestamp. simpl.
        by rewrite (Hdates ip e Hin Hge). }
    rewrite bind_Ok.
    eexists _, st'. split; [reflexivity|]. split; [done|]. split; [done|]. split; [done|].
    cbn [sr_blocked_ips sr_ip_usage].
    split.
    { apply Forall_fmap, Forall_forall. intros [ip e] Hin%elem_of_map_to_list. simpl.
      split; [done|].
      assert (Hge : cleanup_time <= e) by (by apply Hswept in Hin as [_ ?]).
      split; [done|]. split; [lia|].
      intros Hnow. rewrite Z.quot_div_nonneg by lia.
      apply Z.max_r, Z.div_pos; lia. }
    split.
    { intros ip. rewrite <- list_fmap_compose.
      change (ip ∈ (map_to_list (blocked_ips st')).*1 <-> is_Some (blocked_ips st' !! ip)).
      rewrite list_elem_of_fmap. split.
      - intros ([ip' e] & -> & Hin%elem_of_map_to_list). by exists e.
      - intros [e He]. exists (ip, e). split; [done|]. by apply elem_of_map_to_list. }
    split.
    { apply Forall_fmap, Forall_forall. intros [ip d] Hin%elem_of_map_to_list. simpl.
      assert (Hlog : log_of st' ip = d) by (unfold log_of; by rewrite Hin).
      rewrite Hlog. split; [done|].
      assert (Hne : d <> []).
      { intros ->. by apply (sweep_requests_nonempty cleanup_time st ip). }
      destruct d as [|t d]; [done|]. simpl length. lia. }
    intros ip. rewrite <- list_fmap_compose.
    change (ip ∈ (map_to_list (ip_requests st')).*1 <-> is_Some (ip_requests st' !! ip)).
    rewrite list_elem_of_fmap. split.
    + intros ([ip' d] & -> & Hin%elem_of_map_to_list). by exists d.
    + intros [d Hd]. exists (ip, d). split; [done|]. by apply elem_of_map_to_list.
  - intros ip e He Hge Hbad.
    unfold get_stats. rewrite cleanup_old_data_sweep, bind_Ok.
    destruct (fromtimestamp_error e) as [exn|] eqn:Hexn; [|done].
    destruct (mapM_Raise (blocked_info current_time)
                (map_to_list (blocked_ips (sweep cleanup_time st))) (ip, e) exn)
      as [e' ->]; [|by unfold blocked_info, fromtimestamp; simpl; rewrite Hexn|by eexists].
    apply elem_of_map_to_list. by apply Hswept.
Qed.

(** ** More on the outbound call *)

Lemma rstrip_by_snoc drop s c :
  drop c = true -> rstrip_by drop (s +:+ String c "") = rstrip_by drop s.
Proof.
  intros Hc. induction s as [|a s IH]; simpl.
  - by rewrite Hc.
  - by rewrite IH.
Qed.

Lemma rstrip_by_last drop s : forall r c,
  rstrip_by drop s = r +:+ String c "" -> drop c = false.
Proof.
  induction s as [|a s IH]; intros r c; simpl.
  - by destruct r.
  - destruct (rstrip_by drop s) as [|d r'] eqn:Hr.
    + destruct (drop a) eqn:Ha; [by destruct r|].
      destruct r as [|x r]; simpl; [by intros [= <-]|].
      intros [= _ H]. by destruct r.
    + destruct r as [|x r]; simpl; [done|].
      intros [= _ H]. by apply (IH r c).
Qed.

(** X11: trailing slashes of [BACKEND_URL] do not matter: the outbound call
    is the same with and without one, its URL is the base without trailing
    slashes, one slash, and the request path, and that base never ends in a
    slash. *)
Theorem backend_url_trailing_slash url per_hour per_minute minutes req :
  build_call (mkConfig (url +:+ "/") per_hour per_minute minutes) req
  = build_call (mkConfig url per_hour per_minute minutes) req
  /\ (forall call,
        build_call (mkConfig url per_hour per_minute minutes) req = Ok call ->
        call_url call = rstrip_slash url +:+ "/" +:+ req_path req)
  /\ (forall s, rstrip_slash url <> s +:+ "/").
Proof.
  split; [|split].
  - unfold build_call. simpl BACKEND_URL. unfold rstrip_slash.
    by rewrite rstrip_by_snoc.
  - intros call. unfold build_call. simpl BACKEND_URL. cbv zeta.
    destruct (bool_decide (req_method req = "GET")); [by intros [= <-]|].
    destruct (bool_decide (req_method req = "POST")); [|by intros [= <-]].
    destruct (_ && _); [by intros [= <-]|].
    destruct (req_is_json req); [|by intros [= <-]].
    destruct (req_get_json req); [|done]. rewrite bind_Ok. by intros [= <-].
  - intros s Hs. apply rstrip_by_last in Hs. done.
Qed.

(** X12: a POST whose content type contains multipart/form-data goes out as
    form fields and files, without query parameters, whether or not it also
    counts as JSON; besides Host and Content-Length the Content-Type header
    is dropped, in any letter case, and every other header name is kept. *)
Theorem multipart_post_call cfg req :
  req_method req = "POST" ->
  truthy (req_content_type req)
    && contains "multipart/form-data" (default "" (req_content_type req)) = true ->
  exists call,
    build_call cfg req = Ok call
    /\ call_method call = "POST"
    /\ call_params call = None
    /\ call_payload call = Multipart (to_dict_flat (req_form req)) (to_dict_flat (req_files req))
    /\ call_timeout call = 30
    /\ forall k, k ∈ (call_headers call).*1 <->
                 k ∈ (req_headers req).*1
                 /\ lower k ∉ ["host"; "content-length"; "content-type"].
Proof.
  intros Hpost Hmulti. unfold build_call. cbv zeta. rewrite Hpost, Hmulti. simpl.
  eexists. split; [done|]. repeat (split; [done|]). intros k. simpl.
  rewrite dict_comp_keys, request_headers_kept, bool_decide_eq_true.
  rewrite !not_elem_of_cons. split.
  - intros ((? & ? & ?) & ?). repeat split; try done. apply not_elem_of_nil.
  - intros (? & ? & ? & ? & _). done.
Qed.

(** X13: a JSON POST whose body does not parse never reaches the backend:
    the error [request.get_json()] raises inside the [try] block is answered
    500 with its text as details and tallied ERROR, whatever the backend
    would have done. *)
Theorem malformed_json_is_answered_500 cfg clk req st swept count reason st2 e :
  cleanup_old_data (clk_cleanup clk) st = Ok swept ->
  is_ip_blocked (clk_blocked clk) (get_real_ip req) swept = Ok false ->
  check_rate_limit cfg (clk_check clk) (get_real_ip req) swept = ((true, count, reason), st2) ->
  req_method req = "POST" ->
  truthy (req_content_type req)
    && contains "multipart/form-data" (default "" (req_content_type req)) = false ->
  req_is_json req = true ->
  req_get_json req = Raise e ->
  exc_is_timeout e = false ->
  exc_is_connection_error e = false ->
  forall backend,
    proxy_request cfg backend clk req st
    = Ok (jsonify [("error", JStr "Proxy server error"); ("details", JStr (exc_str e))] 500,
          log_request "ERROR" st2).
Proof.
  intros Hsw Hnb Hchk Hpost Hmulti Hjson Hraise Ht Hc backend.
  rewrite (proxy_request_admitted _ _ _ _ _ _ _ _ _ Hsw Hnb Hchk).
  unfold forward, build_call. cbv zeta. rewrite Hpost, Hmulti, Hjson, Hraise. simpl.
  by rewrite Ht, Hc.
Qed.

(** ** Coming back after a pause *)

Lemma popleft_while_all cutoff d :
  Forall (fun t => t < cutoff) d -> popleft_while cutoff d = [].
Proof.
  induction 1 as [|t d Ht _ IH]; simpl; [done|].
  by rewrite (proj2 (Z.ltb_lt _ _) Ht).
Qed.

Lemma count_since_none since d :
  Forall (fun t => t <= since) d -> count_since since d = 0.
Proof.
  intros Hall. unfold count_since.
  induction Hall as [|t d Ht _ IH]; [done|].
  rewrite filter_cons_False by lia. done.
Qed.

Lemma forward_not_ddos_reply cfg backend req st reason :
  fst (forward cfg backend req st) <> ddos_reply cfg reason.
Proof.
  unfold forward. destruct (_ ≫= _) as [r|e]; [discriminate|].
  destruct (exc_is_timeout e); [discriminate|].
  destruct (exc_is_connection_error e); discriminate.
Qed.

(** X18: a client all of whose recorded requests are more than an hour older
    than the sweep is treated as new: the sweep deletes its deque, the
    request becomes the only entry, and it is forwarded whenever the
    thresholds allow a single request at all. *)
Theorem idle_client_starts_afresh cfg backend clk req st :
  Forall (fun t => t < clk_cleanup clk - 3600) (log_of st (get_real_ip req)) ->
  blocked_ips st !! get_real_ip req = None ->
  1 < DDOS_REQUESTS_PER_MINUTE cfg ->
  1 <= REQUESTS_PER_HOUR cfg ->
  exists swept st2,
    cleanup_old_data (clk_cleanup clk) st = Ok swept
    /\ ip_requests swept !! get_real_ip req = None
    /\ ip_requests st2 !! get_real_ip req = Some [clk_check clk]
    /\ proxy_request cfg backend clk req st = Ok (forward cfg backend req st2).
Proof.
  intros Hold Hfree Hddos Hquota.
  assert (Hlog : log_of (sweep (clk_cleanup clk) st) (get_real_ip req) = [])
    by (rewrite sweep_log_of; by apply popleft_while_all).
  exists (sweep (clk_cleanup clk) st). eexists.
  split; [apply cleanup_old_data_sweep|].
  split.
  { pose proof (sweep_requests_nonempty (clk_cleanup clk) st (get_real_ip req)) as Hne.
    unfold log_of in Hlog.
    destruct (ip_requests (sweep (clk_cleanup clk) st) !! get_real_ip req) as [d|]; [|done].
    simpl in Hlog. by subst d. }
  rewrite proxy_request_hourly.
  - cbv zeta. rewrite Hlog. simpl app. simpl length.
    rewrite (proj2 (Z.ltb_ge (REQUESTS_PER_HOUR cfg) (Z.of_nat 1))) by lia.
    split; [|reflexivity]. simpl. by rewrite lookup_insert_eq.
  - by rewrite (sweep_blocked_None _ _ _ Hfree).
  - rewrite Hlog, count_since_snoc by lia. unfold count_since. simpl. lia.
Qed.

(** X19: the per-minute check counts only entries newer than a minute: a
    client that is not blocked and whose recorded requests are all at least
    60 seconds old is never answered DDOS_BLOCKED and gets no block entry, as
    long as the threshold is at least 2. *)
Theorem paced_client_is_not_blocked cfg backend clk req st :
  blocked_ips st !! get_real_ip req = None ->
  Forall (fun t => t <= clk_check clk - 60) (log_of st (get_real_ip req)) ->
  2 <= DDOS_REQUESTS_PER_MINUTE cfg ->
  exists r st',
    proxy_request cfg backend clk req st = Ok (r, st')
    /\ blocked_ips st' !! get_real_ip req = None
    /\ (forall reason, r <> ddos_reply cfg reason)
    /\ (forall m u, r <> blocked_reply m u).
Proof.
  intros Hfree Hpaced Hddos.
  pose proof (sweep_blocked_None (clk_cleanup clk) _ _ Hfree) as Hfree1.
  assert (Hcount : count_since (clk_check clk - 60)
                     (log_of (sweep (clk_cleanup clk) st) (get_real_ip req)) = 0).
  { apply count_since_none. rewrite sweep_log_of.
    destruct (popleft_while_suffix (clk_cleanup clk - 3600) (log_of st (get_real_ip req)))
      as (aged & Hd & _).
    rewrite Hd in Hpaced. by apply Forall_app in Hpaced as [_ ?]. }
  rewrite proxy_request_hourly;
    [|by rewrite Hfree1|rewrite count_since_snoc by lia; lia].
  cbv zeta. set (st2 := set_ip_requests _ _).
  destruct (REQUESTS_PER_HOUR cfg <? _).
  - eexists _, _. split; [done|]. split; [exact Hfree1|]. split; intros; discriminate.
  - pose proof (forward_tables cfg backend req st2) as (_ & Hb & _).
    pose proof (forward_not_ddos_reply cfg backend req st2) as Hnd.
    assert (Hnb : forall m u, fst (forward cfg backend req st2) <> blocked_reply m u).
    { intros m u. unfold forward. destruct (_ ≫= _) as [r|e]; [discriminate|].
      destruct (exc_is_timeout e); [discriminate|].
      destruct (exc_is_connection_error e); discriminate. }
    destruct (forward cfg backend req st2) as [r st']. simpl in *.
    exists r, st'. split; [done|]. split; [by rewrite Hb | done].
Qed.

End platform.

(** * The theorems at concrete inputs *)

(** The inputs below are answered on the platform [utc_dates]. *)

(** ** The claims *)

Lemma hourly_limit_admits_up_to_limit_witness :
  exists st st2,
    run utc_dates strict_config
        [EProxy query_echo (at_time 0) (raw_request "GET");
         EProxy query_echo (at_time 100) (raw_request "GET")] empty_state = Ok st
    /\ proxy_request utc_dates strict_config query_echo (at_time 200) (raw_request "GET") st
       = Ok (rate_limited_reply strict_config 3, log_request "RATE_LIMITED" st2).
Proof.
  destruct (proj2 (hourly_limit_admits_up_to_limit utc_dates strict_config)
              "10.0.0.1" 0 empty_state
              [EProxy query_echo (at_time 0) (raw_request "GET");
               EProxy query_echo (at_time 100) (raw_request "GET")]
              query_echo (at_time 200) (raw_request "GET"))
    as (st & st2 & Hrun & _ & Hreq).
  - reflexivity.
  - reflexivity.
  - reflexivity.
  - repeat constructor; simpl; lia.
  - vm_compute. repeat split.
  - exists st, st2. split; [exact Hrun | exact Hreq].
Defined.




Lemma cleanup_old_data_removes_stale_witness :
  exists st',
    cleanup_old_data 4000 aged_state = Ok st'
    /\ log_of st' "10.0.0.1" = [5000]
    /\ blocked_ips st' !! "10.0.0.1" = None.
Proof.
  destruct (cleanup_old_data_removes_stale 4000 aged_state)
    as (st' & Hsw & _ & _ & _ & Hlog & Hblk).
  - intros ip d Hd. change (ip_requests aged_state) with ({["10.0.0.1" := [0; 10; 5000]]} : gmap string (list Z)) in Hd.
    apply lookup_singleton_Some in Hd as [_ <-]. repeat constructor; lia.
  - exists st'. split; [exact Hsw|]. rewrite Hlog, Hblk. split; reflexivity.
Defined.

Lemma backend_failures_map_to_error_replies_witness :
  exists st2,
    proxy_request utc_dates default_config timeout_backend (at_time 0) (raw_request "GET")
      empty_state
    = Ok (jsonify [("error", JStr "Backend service timeout")] 504,
          log_request "TIMEOUT" st2).
Proof.
  eexists.
  apply (proj2 (backend_failures_map_to_error_replies utc_dates default_config
                  timeout_backend (at_time 0) (raw_request "GET") empty_state)
           empty_state 1 "OK" _ (mkExc true false "timed out")).
  - vm_compute. reflexivity.
  - reflexivity.
  - reflexivity.
  - reflexivity.
Defined.

Lemma backend_response_is_relayed_witness :
  exists r st',
    proxy_request utc_dates default_config sample_backend (at_time 0) (raw_request "GET")
      empty_state
    = Ok (r, st')
    /\ resp_status r = 200
    /\ resp_body r = RawBody "body"
    /\ resp_headers r = [("X-A", "b")].
Proof.
  destruct (backend_response_is_relayed utc_dates default_config sample_backend (at_time 0)
              (raw_request "GET") empty_state empty_state 1 "OK"
              (snd (check_rate_limit default_config 0 "10.0.0.1" empty_state))
              (mkCall "GET" "https://httpbin.org/post" (Some [("a", "1")])
                 [("Content-Type", "text/plain"); ("X-Trace", "7")] NoPayload 30)
              (mkBackendResponse "body" 200
                 [("Content-Length", "4"); ("X-A", "b"); ("connection", "close")]))
    as (r & Hreq & Hstatus & Hbody & _ & _ & Hheaders).
  - vm_compute. reflexivity.
  - reflexivity.
  - reflexivity.
  - vm_compute. reflexivity.
  - reflexivity.
  - exists r. eexists. split; [exact Hreq|]. split; [exact Hstatus|].
    split; [exact Hbody|]. rewrite Hheaders; [reflexivity|].
    apply (bool_decide_unpack (NoDup _)). vm_compute. exact I.
Defined.

(** The client of [busy_state] retries at 3000 and at 3500; at 3900 its
    three old entries have aged out and the request is denied all the
    same. *)
Lemma denied_requests_still_count_witness :
  exists st aged st',
    run utc_dates strict_config
      [EProxy sample_backend (at_time 3000) (raw_request "GET");
       EProxy sample_backend (at_time 3500) (raw_request "GET")] busy_state = Ok st
    /\ [0; 100; 200; 3000; 3500] = aged ++ [3000; 3500]
    /\ proxy_request utc_dates strict_config sample_backend (at_time 3900)
         (raw_request "GET") st
       = Ok (rate_limited_reply strict_config 3, st')
    /\ log_of st' "10.0.0.1" = [3000; 3500; 3900].
Proof.
  destruct (proj2 (denied_requests_still_count utc_dates strict_config)
              "10.0.0.1" busy_state
              [EProxy sample_backend (at_time 3000) (raw_request "GET");
               EProxy sample_backend (at_time 3500) (raw_request "GET")]
              sample_backend (at_time 3900) (raw_request "GET"))
    as (st & swept & aged & st' & Hrun & Hsw & Hsuf & _ & Hreq & Hlog & _).
  - reflexivity.
  - reflexivity.
  - vm_compute. discriminate.
  - vm_compute. repeat split; repeat constructor; discriminate.
  - vm_compute. repeat split.
  - exists st, aged, st'. split; [exact Hrun|].
    vm_compute in Hrun. injection Hrun as <-.
    vm_compute in Hsw. injection Hsw as <-.
    split; [exact Hsuf|]. split; [exact Hreq | exact Hlog].
Defined.

(** ** The further properties *)

Lemma get_real_ip_forwarded_witness :
  get_real_ip (with_header "x-forwarded-FOR" " 1.2.3.4 , 5.6.7.8" (raw_request "GET"))
  = "1.2.3.4".
Proof.
  destruct (get_real_ip_forwarded
              (with_header "x-forwarded-FOR" " 1.2.3.4 , 5.6.7.8" (raw_request "GET"))
              [] "x-forwarded-FOR" " 1.2.3.4 , 5.6.7.8"
              (req_headers (raw_request "GET"))) as [Hip _].
  - reflexivity.
  - reflexivity.
  - constructor.
  - discriminate.
  - rewrite Hip. reflexivity.
Defined.

Lemma get_real_ip_chosen_by_caller_witness :
  get_real_ip (with_header "X-Forwarded-For" "203.0.113.9, 10.0.0.1" (raw_request "GET"))
  = "203.0.113.9".
Proof.
  apply (get_real_ip_chosen_by_caller "X-Forwarded-For" "203.0.113.9" " 10.0.0.1"
           (raw_request "GET")).
  - reflexivity.
  - discriminate.
  - reflexivity.
  - reflexivity.
Defined.

Lemma get_real_ip_empty_witness :
  exists v,
    headers_get "X-Forwarded-For"
      (req_headers (with_header "X-Forwarded-For" " , 1.2.3.4" (raw_request "GET")))
    = Some v
    /\ v <> "".
Proof.
  destruct (get_real_ip_empty
              (with_header "X-Forwarded-For" " , 1.2.3.4" (raw_request "GET")))
    as (v & Hv & Hne & _).
  - reflexivity.
  - exists v. split; [exact Hv | exact Hne].
Defined.

Lemma block_holds_until_expiry_witness :
  exists st st',
    run utc_dates default_config [ESweep 100; EUnblock "10.0.0.2"] boundary_state = Ok st
    /\ proxy_request utc_dates default_config query_echo (at_time 200) (raw_request "GET") st
       = Ok (blocked_reply 56 3600, st').
Proof.
  destruct (block_holds_until_expiry utc_dates default_config "10.0.0.1" 3600
              boundary_state [ESweep 100; EUnblock "10.0.0.2"] query_echo (at_time 200)
              (raw_request "GET"))
    as (st & st' & Hrun & _ & Hreq & _).
  - reflexivity.
  - reflexivity.
  - repeat constructor; simpl; try lia; discriminate.
  - exists st, st'. split; [exact Hrun | exact (Hreq eq_refl)].
Defined.

Lemma lapsed_block_does_not_block_witness :
  exists r st',
    proxy_request utc_dates default_config query_echo (at_time 3600) (raw_request "GET")
      boundary_state
    = Ok (r, st')
    /\ forall m u, r <> blocked_reply m u.
Proof.
  destruct (lapsed_block_does_not_block utc_dates default_config query_echo (at_time 3600)
              (raw_request "GET") boundary_state 3600)
    as (swept & r & st' & _ & _ & _ & Hreq & _ & Hnot).
  - reflexivity.
  - simpl. lia.
  - exists r, st'. split; [exact Hreq | exact Hnot].
Defined.

Lemma blocked_reply_remaining_minutes_witness :
  exists m st',
    proxy_request utc_dates default_config query_echo (mkClock 100 100 130 100)
      (raw_request "GET") boundary_state
    = Ok (blocked_reply m 3600, st')
    /\ 0 <= m <= 60.
Proof.
  destruct (blocked_reply_remaining_minutes utc_dates default_config query_echo
              (mkClock 100 100 130 100) (raw_request "GET") boundary_state 0)
    as (m & st' & Hreq & Hm & _).
  - reflexivity.
  - simpl. lia.
  - simpl. lia.
  - simpl. lia.
  - reflexivity.
  - exists m, st'. split; [exact Hreq | exact Hm].
Defined.

Lemma get_stats_report_witness :
  exists report st',
    get_stats utc_dates default_config 100 130 140 boundary_state = Ok (report, st')
    /\ sr_blocked_ips report = [mkBlockedInfo "10.0.0.1" 57 3600].
Proof.
  destruct (proj1 (get_stats_report utc_dates default_config 100 130 140 boundary_state))
    as (report & st' & Hreq & _).
  - intros ip e He _.
    change (blocked_ips boundary_state) with ({["10.0.0.1" := 3600]} : gmap string Z) in He.
    apply lookup_singleton_Some in He as [_ <-]. reflexivity.
  - exists report, st'. split; [exact Hreq|].
    vm_compute in Hreq. injection Hreq as <- _. reflexivity.
Defined.

Lemma multipart_post_call_witness :
  exists call,
    build_call default_config upload_request = Ok call
    /\ call_params call = None
    /\ call_payload call
       = Multipart [("title", "t")] [("file", mkUpload "a.txt" "abc" "text/plain")].
Proof.
  destruct (multipart_post_call default_config upload_request)
    as (call & Hcall & _ & Hparams & Hpayload & _).
  - reflexivity.
  - reflexivity.
  - exists call. split; [exact Hcall|]. split; [exact Hparams | exact Hpayload].
Defined.

Lemma malformed_json_is_answered_500_witness :
  exists st2,
    proxy_request utc_dates default_config query_echo (at_time 0) bad_json_request
      empty_state
    = Ok (jsonify [("error", JStr "Proxy server error");
                   ("details", JStr "400 Bad Request")] 500,
          log_request "ERROR" st2).
Proof.
  eexists.
  apply (malformed_json_is_answered_500 utc_dates default_config (at_time 0)
           bad_json_request empty_state empty_state 1 "OK" _
           (mkExc false false "400 Bad Request")).
  - vm_compute. reflexivity.
  - reflexivity.
  - reflexivity.
  - reflexivity.
  - reflexivity.
  - reflexivity.
  - reflexivity.
  - reflexivity.
  - reflexivity.
Defined.

Lemma nothing_forwarded_without_quota_witness :
  exists result st',
    (forall backend,
        proxy_request_body utc_dates closed_config backend (at_time 0) (raw_request "GET")
          empty_state
        = (result, st'))
    /\ tally "SUCCESS" st' = 0.
Proof.
  destruct (nothing_forwarded_without_quota utc_dates closed_config (at_time 0)
              (raw_request "GET") empty_state) as (result & st' & Hreq & Htally & _).
  - simpl. lia.
  - exists result, st'. split; [exact Hreq|].
    rewrite (Htally "SUCCESS"); [reflexivity | repeat constructor].
Defined.

Lemma every_request_blocks_at_threshold_one_witness :
  exists result st',
    (forall backend,
        proxy_request_body utc_dates jumpy_config backend (at_time 0) (raw_request "GET")
          empty_state
        = (result, st'))
    /\ is_Some (blocked_ips st' !! "10.0.0.1").
Proof.
  destruct (every_request_blocks_at_threshold_one utc_dates jumpy_config (at_time 0)
              (raw_request "GET") empty_state) as (result & st' & Hreq & Hblk & _).
  - simpl. lia.
  - exists result, st'. split; [exact Hreq | exact Hblk].
Defined.

Lemma unblock_ip_keeps_history_witness :
  exists r0 st1 st',
    unblock_ip "10.0.0.1" busy_state = Ok (r0, st1)
    /\ proxy_request utc_dates twitchy_config query_echo (at_time 210) (raw_request "GET")
         st1
       = Ok (ddos_reply twitchy_config "DDoS detected", st').
Proof.
  destruct (unblock_ip_keeps_history utc_dates twitchy_config query_echo (at_time 210)
              (raw_request "GET") busy_state)
    as (r0 & st1 & st' & Hun & _ & Hreq & _).
  - vm_compute. discriminate.
  - simpl. lia.
  - exists r0, st1, st'. split; [exact Hun | exact Hreq].
Defined.

Lemma proxy_request_other_client_witness :
  exists st',
    step utc_dates default_config
      (EProxy query_echo (at_time 100) (raw_request "GET")) boundary_state
    = Ok st'
    /\ ip_requests st' !! "10.0.0.2" = None.
Proof.
  destruct (proxy_request_other_client utc_dates default_config query_echo (at_time 100)
              (raw_request "GET") boundary_state "10.0.0.2")
    as (swept & st' & Hsw & Hstep & _ & Hlog & _).
  - discriminate.
  - exists st'. split; [exact Hstep|]. rewrite Hlog.
    vm_compute in Hsw. injection Hsw as <-. reflexivity.
Defined.

Lemma idle_client_starts_afresh_witness :
  exists st2,
    ip_requests st2 !! "10.0.0.1" = Some [5000]
    /\ proxy_request utc_dates default_config query_echo (at_time 5000) (raw_request "GET")
         idle_state
       = Ok (forward default_config query_echo (raw_request "GET") st2).
Proof.
  destruct (idle_client_starts_afresh utc_dates default_config query_echo (at_time 5000)
              (raw_request "GET") idle_state) as (swept & st2 & _ & _ & Hlog & Hreq).
  - vm_compute. repeat constructor.
  - reflexivity.
  - simpl. lia.
  - simpl. lia.
  - exists st2. split; [exact Hlog | exact Hreq].
Defined.

Lemma paced_client_is_not_blocked_witness :
  exists r st',
    proxy_request utc_dates default_config query_echo (at_time 300) (raw_request "GET")
      busy_state
    = Ok (r, st')
    /\ blocked_ips st' !! "10.0.0.1" = None.
Proof.
  destruct (paced_client_is_not_blocked utc_dates default_config query_echo (at_time 300)
              (raw_request "GET") busy_state) as (r & st' & Hreq & Hfree & _).
  - reflexivity.
  - vm_compute. repeat constructor; discriminate.
  - simpl. lia.
  - exists r, st'. split; [exact Hreq | exact Hfree].
Defined.
